(** * Open-Meteo Maps viewer: selection state, level grouping and overlay URLs

    A shallow embedding of the client-side logic of [src/App.tsx]: the
    helpers [pad], [fmtModelRun], [fmtSelectedTime], [getOMUrl],
    [getLevelPrefix], [hasLevels], the derived lists [variableList] and
    [levelGroupsList], and the three handlers [handleDomainChange],
    [handleVariableChange], [handleLevelChange] of the [App] component.

    Component state is threaded explicitly through a small state and
    exception monad; the regular expressions and option tables imported from
    [@openmeteo/mapbox-layer] are section variables. *)

From Stdlib Require Import ZArith String Ascii DecimalString.
From stdpp Require Import gmap strings list fin_maps.

Local Open Scope Z_scope.

(** ** JavaScript built-ins used by the component *)

Module JS.

(** [s.startsWith(p)] *)
Definition startsWith (s p : string) : bool := String.prefix p s.

(** [s.includes(sub)]: [sub] occurs somewhere in [s]. *)
Fixpoint includes (s sub : string) : bool :=
  String.prefix sub s ||
  match s with
  | EmptyString => false
  | String _ s' => includes s' sub
  end.

(** [s.padStart(n, c)] for a one-character filler [c]. *)
Definition padStart (s : string) (n : nat) (c : ascii) : string :=
  (string_of_list_ascii (repeat c (n - String.length s)) ++ s)%string.

(** A number is an integer or [NaN]; only integers arise from the getters
    of a valid date. *)
Definition number := option Z.

(** [String(num)], also the conversion `${num}` of a template literal. *)
Definition String_of_number (num : number) : string :=
  match num with
  | Some z => NilZero.string_of_int (Z.to_int z)
  | None => "NaN"
  end.

Definition add (a : number) (b : Z) : number := (fun z => z + b) <$> a.

(** A [Date] holds a time value, milliseconds since the epoch, or [NaN]
    (an invalid date). *)
Definition Date := option Z.

Definition msPerHour : Z := 3600000.
Definition msPerDay : Z := 86400000.
Definition maxTimeValue : Z := 8640000000000000.

Definition TimeClip (t : Z) : Date :=
  if Z.abs t <=? maxTimeValue then Some t else None.

Definition Day (t : Z) : Z := t / msPerDay.
Definition HourFromTime (t : Z) : Z := (t / msPerHour) mod 24.
Definition MinFromTime (t : Z) : Z := (t / 60000) mod 60.
Definition SecFromTime (t : Z) : Z := (t / 1000) mod 60.
Definition msFromTime (t : Z) : Z := t mod 1000.

(** Year, month (1..12) and day of month of a day number, in the
    proleptic Gregorian calendar. *)
Definition civil (day : Z) : Z * Z * Z :=
  let z := day + 719468 in
  let era := z / 146097 in
  let doe := z - era * 146097 in
  let yoe := (doe - doe / 1460 + doe / 36524 - doe / 146096) / 365 in
  let doy := doe - (365 * yoe + yoe / 4 - yoe / 100) in
  let mp := (5 * doy + 2) / 153 in
  let d := doy - (153 * mp + 2) / 5 + 1 in
  let m := if mp <? 10 then mp + 3 else mp - 9 in
  let y := yoe + era * 400 + (if m <=? 2 then 1 else 0) in
  (y, m, d).

Definition getUTCFullYear (d : Date) : number :=
  (fun t => (civil (Day t)).1.1) <$> d.
(** months count from zero *)
Definition getUTCMonth (d : Date) : number :=
  (fun t => (civil (Day t)).1.2 - 1) <$> d.
Definition getUTCDate (d : Date) : number :=
  (fun t => (civil (Day t)).2) <$> d.
Definition getUTCHours (d : Date) : number := HourFromTime <$> d.
Definition getUTCMinutes (d : Date) : number := MinFromTime <$> d.

(** [d.setUTCHours(h, 0, 0, 0)]: the day of [d] at hour [h] sharp; hours
    past 23 run into the following day. *)
Definition setUTCHours0 (d : Date) (h : number) : Date :=
  match d, h with
  | Some t, Some h => TimeClip (Day t * msPerDay + h * msPerHour)
  | _, _ => None
  end.

(** [a <= b]: false as soon as one side is [NaN]. *)
Definition le (a b : number) : bool :=
  match a, b with
  | Some a, Some b => a <=? b
  | _, _ => false
  end.

Definition sub (a : number) (b : Z) : number := (fun z => z - b) <$> a.

(** The 32-bit conversions behind the shift operators; [NaN] converts
    to zero. *)
Definition ToInt32 (n : number) : Z :=
  match n with
  | Some z => (z + 2147483648) mod 4294967296 - 2147483648
  | None => 0
  end.

Definition ToUint32 (n : number) : Z :=
  match n with
  | Some z => z mod 4294967296
  | None => 0
  end.

(** [a >> b]: sign-propagating shift of the 32-bit value of [a] by the low
    five bits of [b]. *)
Definition sar (a b : number) : Z :=
  Z.shiftr (ToInt32 a) (ToUint32 b mod 32).

End JS.

(** ** Helper functions of the module *)

Definition pad (num : JS.number) : string :=
  JS.padStart (JS.String_of_number num) 2 "0".

Definition fmtModelRun (modelRun : JS.Date) : string :=
  (JS.String_of_number (JS.getUTCFullYear modelRun) ++ "/" ++
   pad (JS.add (JS.getUTCMonth modelRun) 1) ++ "/" ++
   pad (JS.getUTCDate modelRun) ++ "/" ++
   pad (JS.getUTCHours modelRun) ++ pad (JS.getUTCMinutes modelRun) ++ "Z")%string.

Definition fmtSelectedTime (time : JS.Date) : string :=
  (JS.String_of_number (JS.getUTCFullYear time) ++ "-" ++
   pad (JS.add (JS.getUTCMonth time) 1) ++ "-" ++
   pad (JS.getUTCDate time) ++ "T" ++
   pad (JS.getUTCHours time) ++ pad (JS.getUTCMinutes time))%string.

(** The base endpoint, chosen in [getOMUrl] and in [fetchMetaData] by the
    same conditional expression. *)
Definition uri (domain : string) : string :=
  if JS.startsWith domain "dwd_icon"
  then "https://s3.servert.ch"
  else "https://map-tiles.open-meteo.com".

Definition getOMUrl (domain variable : string) (modelRun selectedTime : JS.Date)
  : string :=
  let url := (uri domain ++ "/data_spatial/" ++ domain)%string in
  let url := (url ++ "/" ++ fmtModelRun modelRun ++ "/" ++
              fmtSelectedTime selectedTime ++ ".om")%string in
  let url := (url ++ "?variable=" ++ variable)%string in
  url.

(** The address requested by [fetchMetaData]. *)
Definition metaDataUrl (domainValue : string) : string :=
  (uri domainValue ++ "/data_spatial/" ++ domainValue ++ "/latest.json")%string.

(** The address rewriting of the [mapterhorn] protocol handler, on the three
    numbers read from the requested address (integers, or [NaN] for a
    segment that is not a number). *)
Definition mapterhornName (z x y : JS.number) : string :=
  if JS.le z (Some 12) then "planet"
  else ("6-" ++ JS.String_of_number (Some (JS.sar x (JS.sub z 6))) ++ "-" ++
        JS.String_of_number (Some (JS.sar y (JS.sub z 6))))%string.

Definition mapterhornUrl (z x y : JS.number) : string :=
  ("pmtiles://https://mapterhorn.servert.ch/" ++ mapterhornName z x y ++
   ".pmtiles/" ++ JS.String_of_number z ++ "/" ++ JS.String_of_number x ++
   "/" ++ JS.String_of_number y ++ ".webp")%string.

(** ** Data model *)

(** An entry of a level group, and of the imported [variableOptions] table. *)
Record VarOption := { value : string; label : string }.

(** [DomainMetaDataJson]: the body of [latest.json]. *)
Record DomainMetaDataJson := {
  reference_time : string;
  variables : list string
}.

(** The [useState] cells of [App]. A cell typed [string] can still hold
    [undefined] at run time ([meta.variables[0]] of an empty array), which
    is [None] in [variable]; [None] in [metaJson] and [modelRun] is [null]. *)
Record AppState := {
  loading : bool;
  domain : string;
  variable : option string;
  metaJson : option DomainMetaDataJson;
  modelRun : option JS.Date;
  selectedTime : JS.Date
}.

(** What the network answers to a [fetch] of an address: a rejected promise,
    or a response whose body parses as a metadata document or does not. *)
Inductive FetchOutcome :=
| NetworkError
| Response (ok : bool) (status : Z) (json : option DomainMetaDataJson).

(** ** Handlers: state with exceptions *)

Inductive completion (A : Type) :=
| Normal (a : A)
| Throw (e : string).
Arguments Normal {A} a.
Arguments Throw {A} e.

Definition Handler (A : Type) : Type := AppState -> completion A * AppState.

#[global] Instance Handler_ret : MRet Handler := fun A a st => (Normal a, st).

#[global] Instance Handler_bind : MBind Handler := fun A B f m st =>
  match m st with
  | (Normal a, st') => f a st'
  | (Throw e, st') => (Throw e, st')
  end.

Definition throw {A} (e : string) : Handler A := fun st => (Throw e, st).

(** [try { body } catch (error) { handler }] *)
Definition try_catch {A} (body : Handler A) (handler : string -> Handler A)
  : Handler A := fun st =>
  match body st with
  | (Normal a, st') => (Normal a, st')
  | (Throw e, st') => handler e st'
  end.

(** [try { body } finally { fin }] *)
Definition try_finally {A} (body : Handler A) (fin : Handler unit)
  : Handler A := fun st =>
  match body st with
  | (c, st') =>
      match fin st' with
      | (Normal _, st'') => (c, st'')
      | (Throw e, st'') => (Throw e, st'')
      end
  end.

(** The values a handler closes over: the state of the render it was
    created in, which is the state at the time of the event. *)
Definition render : Handler AppState := fun st => (Normal st, st).

(** State after a handler has run. *)
Definition exec {A} (h : Handler A) (st : AppState) : AppState := (h st).2.

Definition setLoading (b : bool) : Handler unit := fun st =>
  (Normal tt, {| loading := b; domain := domain st; variable := variable st;
                 metaJson := metaJson st; modelRun := modelRun st;
                 selectedTime := selectedTime st |}).

Definition setDomain (d : string) : Handler unit := fun st =>
  (Normal tt, {| loading := loading st; domain := d; variable := variable st;
                 metaJson := metaJson st; modelRun := modelRun st;
                 selectedTime := selectedTime st |}).

Definition setVariable (v : option string) : Handler unit := fun st =>
  (Normal tt, {| loading := loading st; domain := domain st; variable := v;
                 metaJson := metaJson st; modelRun := modelRun st;
                 selectedTime := selectedTime st |}).

Definition setMetaJson (m : option DomainMetaDataJson) : Handler unit := fun st =>
  (Normal tt, {| loading := loading st; domain := domain st;
                 variable := variable st; metaJson := m;
                 modelRun := modelRun st; selectedTime := selectedTime st |}).

Definition setModelRun (r : option JS.Date) : Handler unit := fun st =>
  (Normal tt, {| loading := loading st; domain := domain st;
                 variable := variable st; metaJson := metaJson st;
                 modelRun := r; selectedTime := selectedTime st |}).

(** [console.error(...)]: the console is not part of the component state. *)
Definition console_error (msg : string) : Handler unit := mret tt.

(** The lazy initialiser of the [selectedTime] cell, run on [now = new Date()]. *)
Definition initSelectedTime (now : JS.Date) : JS.Date :=
  JS.setUTCHours0 now (JS.add (JS.getUTCHours now) 1).

(** The state of the first render. *)
Definition initialState (now : JS.Date) : AppState :=
  {| loading := true; domain := "dwd_icon"; variable := Some "temperature_2m"%string;
     metaJson := None; modelRun := None;
     selectedTime := initSelectedTime now |}.

(** The loop of [handleDomainChange]: the first entry starting with
    [prefix] replaces [newVariable]. *)
Fixpoint scanPrefix (prefix : string) (vs : list string)
    (newVariable : option string) : option string :=
  match vs with
  | [] => newVariable
  | v :: vs' =>
      if JS.startsWith v prefix then Some v else scanPrefix prefix vs' newVariable
  end.

Definition isDefaultLevel (level : VarOption) : bool :=
  JS.includes (value level) "2m" || JS.includes (value level) "10m"
  || JS.includes (value level) "100m".

(** The loop of [handleVariableChange]. *)
Fixpoint scanLevels (levels : list VarOption) (defaultLevel : string) : string :=
  match levels with
  | [] => defaultLevel
  | level :: levels' =>
      if isDefaultLevel level then value level else scanLevels levels' defaultLevel
  end.

(** The preference order as the specification words it: the first entry
    containing "2m", else the first containing "10m", else the first
    containing "100m", else the first entry. *)
Definition spec_defaultMember (levels : list VarOption) : option string :=
  let first_with sub := List.find (fun l => JS.includes (value l) sub) levels in
  value <$> match first_with "2m"%string with
            | Some l => Some l
            | None =>
                match first_with "10m"%string with
                | Some l => Some l
                | None =>
                    match first_with "100m"%string with
                    | Some l => Some l
                    | None => head levels
                    end
                end
            end.

(** ** A sample grammar for level-bearing names *)

Module Sample.

Definition is_digit (c : ascii) : bool :=
  ((48 <=? nat_of_ascii c) && (nat_of_ascii c <=? 57))%nat.

Fixpoint span_digits (l : list ascii) : list ascii * list ascii :=
  match l with
  | c :: l' =>
      if is_digit c
      then let '(ds, rest) := span_digits l' in (c :: ds, rest)
      else ([], l)
  | [] => ([], [])
  end.

(** Unit suffix of a name, read from its end. *)
Definition split_unit (r : list ascii) : option (string * list ascii) :=
  match r with
  | "a"%char :: "P"%char :: "h"%char :: rest => Some ("hPa"%string, rest)
  | "m"%char :: rest => Some ("m"%string, rest)
  | _ => None
  end.

(** Modelled from the spec: the three patterns [LEVEL_REGEX],
    [LEVEL_PREFIX] and [LEVEL_UNIT_REGEX] are constants of the imported
    library and not part of the sources. The specification describes
    level-bearing names as "a recognized textual pattern encoding a group
    prefix, a numeric level value, and a unit suffix", with 850 / hPa and
    the metre levels 2m, 10m, 100m as examples; [parse] reads a name as
    prefix, underscore, decimal level, unit (hPa or m), anchored at both
    ends. Used only to instantiate the patterns on concrete documents. *)
Definition parse (name : string) : option (string * string * string) :=
  match split_unit (rev (list_ascii_of_string name)) with
  | Some (unit, rest) =>
      match span_digits rest with
      | (d :: ds, "_"%char :: p) =>
          Some (string_of_list_ascii (rev p),
                string_of_list_ascii (rev (d :: ds)), unit)
      | _ => None
      end
  | None => None
  end.

Definition LEVEL_REGEX (name : string) : bool :=
  match parse name with Some _ => true | None => false end.

Definition LEVEL_PREFIX (name : string) : option string :=
  (fun r => r.1.1) <$> parse name.

(** No label table: every entry is labelled by its own name. *)
Definition variableOptions : list VarOption := [].

(** [new Date(s)] at the two reference times used in the examples. *)
Definition Date_parse (s : string) : JS.Date :=
  if String.eqb s "2024-05-01T06:00Z" then Some 1714543200000
  else if String.eqb s "2024-05-01T12:00Z" then Some 1714564800000
  else None.

Definition levelGroupVariables : list string :=
  ["temperature"; "wind_speed"]%string.

(** Two metadata documents, a state with the first one loaded, and three
    networks. *)
Definition icon : DomainMetaDataJson :=
  {| reference_time := "2024-05-01T06:00Z";
     variables := ["temperature_2m"; "wind_speed_100m"; "wind_speed_10m";
                   "cape"; "temperature_850hPa"]%string |}.

Definition gfs : DomainMetaDataJson :=
  {| reference_time := "2024-05-01T12:00Z";
     variables := ["cape"; "wind_speed_10m"; "wind_speed_80m"]%string |}.

Definition bare : DomainMetaDataJson :=
  {| reference_time := "2024-05-01T12:00Z"; variables := [] |}.

Definition loaded : AppState :=
  {| loading := false; domain := "dwd_icon";
     variable := Some "temperature_2m"%string;
     metaJson := Some icon; modelRun := Some (Some 1714543200000);
     selectedTime := Some 1714546800000 |}.

Definition offline : string -> FetchOutcome := fun _ => NetworkError.

Definition serving (doc : DomainMetaDataJson) : string -> FetchOutcome :=
  fun url =>
    if String.eqb url
         "https://map-tiles.open-meteo.com/data_spatial/gfs_global/latest.json"
    then Response true 200 (Some doc)
    else Response false 404 None.

End Sample.

(** ** The [App] component *)

Section App.

Set Default Proof Using "Type".

(** Imported from [@openmeteo/mapbox-layer]: [LEVEL_REGEX.test(s)], the
    [prefix] group of [s.match(LEVEL_PREFIX)] when there is one, the label
    table and the list of group names offered with a level selector. *)
Variable LEVEL_REGEX : string -> bool.
Variable LEVEL_PREFIX : string -> option string.
Variable variableOptions : list VarOption.
Variable levelGroupVariables : list string.
(** [new Date(s)] on a string *)
Variable Date_parse : string -> JS.Date.

(** [match?.groups?.prefix || null]: an empty prefix is falsy. *)
Definition getLevelPrefix (variable : string) : option string :=
  match LEVEL_PREFIX variable with
  | Some prefix => if String.eqb prefix "" then None else Some prefix
  | None => None
  end.

Definition hasLevels (variable : string) : bool := LEVEL_REGEX variable.

(** [getLevelPrefix] applied to the [variable] cell: [undefined.match]
    is a [TypeError]. *)
Definition getLevelPrefix_cell (variable : option string)
  : Handler (option string) :=
  match variable with
  | Some v => mret (getLevelPrefix v)
  | None => throw "TypeError"
  end.

(** One iteration of the loop of [variableList]. *)
Definition variableList_body (variables : list string) (mjVariable : string)
  : list string :=
  if hasLevels mjVariable then
    match getLevelPrefix mjVariable with
    | Some prefix =>
        if bool_decide (prefix ∈ variables) then variables
        else variables ++ [prefix]
    | None => variables
    end
  else variables ++ [mjVariable].

Definition variableList (metaJson : option DomainMetaDataJson) : list string :=
  match metaJson with
  | None => []
  | Some m => fold_left variableList_body (variables m) []
  end.

(** [variableOptions.find(v => v.value === mjVariable) || {value, label}] *)
Definition varOptionOf (mjVariable : string) : VarOption :=
  match List.find (fun v => String.eqb (value v) mjVariable) variableOptions with
  | Some v => v
  | None => {| value := mjVariable; label := mjVariable |}
  end.

(** One iteration of the loop of [levelGroupsList]. The object [groups]
    is used as a map from prefixes to arrays; prefixes that name a member
    of [Object.prototype] are outside the model. *)
Definition levelGroupsList_body (groups : gmap string (list VarOption))
    (mjVariable : string) : gmap string (list VarOption) :=
  if hasLevels mjVariable then
    match getLevelPrefix mjVariable with
    | Some prefix =>
        let varOption := varOptionOf mjVariable in
        let groups :=
          match groups !! prefix with
          | Some _ => groups
          | None => <[prefix := []]> groups
          end in
        alter (fun l => l ++ [varOption]) prefix groups
    | None => groups
    end
  else groups.

Definition levelGroupsList (metaJson : option DomainMetaDataJson)
  : gmap string (list VarOption) :=
  match metaJson with
  | None => ∅
  | Some m => fold_left levelGroupsList_body (variables m) ∅
  end.

Definition currentLevelGroup (variable : string) : option string :=
  match getLevelPrefix variable with
  | Some prefix =>
      if bool_decide (prefix ∈ levelGroupVariables) then Some prefix else None
  | None => None
  end.

Definition currentLevels (st : AppState) : list VarOption :=
  match variable st with
  | Some v =>
      match currentLevelGroup v with
      | Some levelGroup =>
          match levelGroupsList (metaJson st) !! levelGroup with
          | Some levels => levels
          | None => []
          end
      | None => []
      end
  | None => []
  end.

(** [fetch] is the network at the time of the call: what requesting an
    address yields. *)
Definition fetchMetaData (fetch : string -> FetchOutcome) (domainValue : string)
  : Handler DomainMetaDataJson :=
  match fetch (metaDataUrl domainValue) with
  | NetworkError => throw "TypeError: Failed to fetch"
  | Response ok status json =>
      if negb ok
      then throw ("HTTP " ++ JS.String_of_number (Some status))
      else match json with
           | Some meta => mret meta
           | None => throw "SyntaxError"
           end
  end.

(** [updateOMLayer]: the address handed to the raster source, when a model
    run is known. *)
Definition updateOMLayer (st : AppState) : option string :=
  match modelRun st with
  | Some run =>
      Some ("om://" ++ getOMUrl (domain st)
              (match variable st with Some v => v | None => "undefined" end)
              run (selectedTime st))%string
  | None => None
  end.

(** [initMap], up to the point where the loading indicator is cleared:
    by the map's load event, or by the [catch] clause when the metadata, the
    style or the map construction fails. *)
Definition initMap (fetch : string -> FetchOutcome) : Handler unit :=
  cl ← render;
  try_catch
    (meta ← fetchMetaData fetch (domain cl);
     setMetaJson (Some meta);;
     setModelRun (Some (Date_parse (reference_time meta)));;
     setLoading false)
    (fun error => console_error "Failed to initialize map:";; setLoading false).

Definition handleDomainChange (fetch : string -> FetchOutcome)
    (newDomain : string) : Handler unit :=
  cl ← render;
  setLoading true;;
  setDomain newDomain;;
  try_finally
    (try_catch
       (meta ← fetchMetaData fetch newDomain;
        setMetaJson (Some meta);;
        setModelRun (Some (Date_parse (reference_time meta)));;
        if negb (match variable cl with
                 | Some v => bool_decide (v ∈ variables meta)
                 | None => false
                 end)
        then
          prefix ← getLevelPrefix_cell (variable cl);
          let newVariable := variables meta !! 0%nat in
          let newVariable :=
            match prefix with
            | Some prefix => scanPrefix prefix (variables meta) newVariable
            | None => newVariable
            end in
          setVariable newVariable
        else mret tt)
       (fun error => console_error "Failed to fetch metadata:"))
    (setLoading false).

Definition handleVariableChange (newVariable : string) : Handler unit :=
  cl ← render;
  let groups := levelGroupsList (metaJson cl) in
  match groups !! newVariable with
  | Some levels =>
      match levels !! 0%nat with
      | Some first =>
          let defaultLevel := scanLevels levels (value first) in
          setVariable (Some defaultLevel)
      | None => throw "TypeError"
      end
  | None => setVariable (Some newVariable)
  end.

Definition handleLevelChange (newLevel : string) : Handler unit :=
  setVariable (Some newLevel).

(** The options rendered in the variable and level selectors. *)
Definition variableSelectOptions (st : AppState) : list string :=
  List.filter
    (fun v => negb (JS.includes v "_v_") && negb (JS.includes v "_direction"))
    (variableList (metaJson st)).

Definition levelSelectOptions (st : AppState) : list string :=
  value <$>
    List.filter
      (fun l => negb (JS.includes (value l) "v_component")
                && negb (JS.includes (value l) "_direction"))
      (currentLevels st).

(** [getVariableLabel]: [option?.label || value], an empty label is falsy. *)
Definition getVariableLabel (value0 : string) : string :=
  match List.find (fun v => String.eqb (value v) value0) variableOptions with
  | Some option =>
      if String.eqb (label option) "" then value0 else label option
  | None => value0
  end.

(** The [value] attribute of the variable selector, [levelGroup || variable],
    for a variable cell holding a name. *)
Definition variableSelectValue (variable : string) : string :=
  match currentLevelGroup variable with
  | Some levelGroup => levelGroup
  | None => variable
  end.

(** The model run is the parsed reference time of the loaded document, and
    absent when no document is loaded. *)
Definition runCoherent (st : AppState) : Prop :=
  modelRun st = (fun m => Date_parse (reference_time m)) <$> metaJson st.

(** What a metadata request for [d] leaves in a cell: the value drawn from
    the served document, or the old value when the request fails. *)
Definition served {A} (fetch : string → FetchOutcome) (d : string)
    (new : DomainMetaDataJson → A) (old : A) : A :=
  match fetch (metaDataUrl d) with
  | Response true _ (Some doc) => new doc
  | _ => old
  end.

(** *** The session as a transition system *)

(** What can happen to the component: the mount effect running [initMap],
    and a change event of one of the three selectors. A domain change
    carries the network of its time. *)
Inductive event :=
| Mount (fetch : string -> FetchOutcome)
| DomainChange (fetch : string -> FetchOutcome) (newDomain : string)
| VariableChange (newVariable : string)
| LevelChange (newLevel : string).

Definition handler (e : event) : Handler unit :=
  match e with
  | Mount fetch => initMap fetch
  | DomainChange fetch newDomain => handleDomainChange fetch newDomain
  | VariableChange newVariable => handleVariableChange newVariable
  | LevelChange newLevel => handleLevelChange newLevel
  end.

Definition step (st : AppState) (e : event) : AppState := exec (handler e) st.

Definition run (st : AppState) (es : list event) : AppState :=
  fold_left step es st.

(** The events the rendered page can deliver in a state: a selector fires
    only when it is not disabled, and only with one of its options. The
    domain options come from an imported table and are left open. *)
Definition enabled (st : AppState) (e : event) : bool :=
  match e with
  | Mount _ => false
  | DomainChange _ _ => negb (loading st)
  | VariableChange v =>
      negb (loading st || negb (bool_decide (is_Some (metaJson st))))
      && bool_decide (v ∈ variableSelectOptions st)
  | LevelChange l =>
      negb (loading st) && bool_decide (l ∈ levelSelectOptions st)
  end.

Fixpoint enabled_trace (st : AppState) (es : list event) : bool :=
  match es with
  | [] => true
  | e :: es' => enabled st e && enabled_trace (step st e) es'
  end.

(** A metadata fetch fails: the request is rejected, the status is not
    2xx, or the body does not parse. *)
Definition fetchFailed (o : FetchOutcome) : bool :=
  match o with
  | NetworkError => true
  | Response ok _ json => negb ok || negb (bool_decide (is_Some json))
  end.

(** Every metadata document an event loads lists at least one variable. *)
Definition loadsNonEmpty (e : event) : bool :=
  match e with
  | DomainChange fetch newDomain =>
      match fetch (metaDataUrl newDomain) with
      | Response true _ (Some meta) => negb (bool_decide (variables meta = []))
      | _ => true
      end
  | _ => true
  end.

(** The selection invariant: the current variable is a name, and a member
    of the metadata document once one is loaded. *)
Definition selectionInv (st : AppState) : Prop :=
  ∃ v, variable st = Some v ∧
       ∀ m, metaJson st = Some m → v ∈ variables m.

(** The level-bearing names of a document filed under prefix [p]. *)
Definition levelMembers (p : string) (vars : list string) : list string :=
  filter (fun n => hasLevels n = true ∧ getLevelPrefix n = Some p) vars.

Definition scalars (vars : list string) : list string :=
  filter (fun n => hasLevels n = false) vars.

Definition occurrences (p : string) (l : list string) : nat :=
  length (filter (fun x => x = p) l).

(** The variable chosen by a domain change that loaded [meta], when the
    variable was [v]: the closed form of the [try] block of
    [handleDomainChange], related to the handler by
    [handleDomainChange_loaded]. *)
Definition reconciled (v : string) (meta : DomainMetaDataJson) : option string :=
  if bool_decide (v ∈ variables meta) then Some v
  else match getLevelPrefix v with
       | Some prefix =>
           scanPrefix prefix (variables meta) (variables meta !! 0%nat)
       | None => variables meta !! 0%nat
       end.

(** Unfolds a handler down to the state it returns. *)
Ltac unfold_handlers :=
  unfold step, exec, handler, initMap, handleDomainChange,
    handleVariableChange, handleLevelChange, getLevelPrefix_cell,
    fetchMetaData, try_finally, try_catch, render, console_error, throw,
    mbind, mret, Handler_bind, Handler_ret;
  cbn.

(** *** Level grouping *)

Lemma value_varOptionOf n : value (varOptionOf n) = n.
Proof.
  unfold varOptionOf.
  destruct (List.find _ variableOptions) as [v|] eqn:Hfind; [|done].
  apply List.find_some in Hfind as [_ Heq].
  by apply String.eqb_eq in Heq.
Qed.

Lemma values_varOptionOf (ns : list string) :
  value <$> (varOptionOf <$> ns) = ns.
Proof.
  induction ns as [|n ns IH]; [done|].
  cbn [fmap list_fmap]. f_equal; [apply value_varOptionOf | apply IH].
Qed.

Lemma levelMembers_snoc p vars x :
  levelMembers p (vars ++ [x]) =
  levelMembers p vars ++
    (if decide (hasLevels x = true ∧ getLevelPrefix x = Some p) then [x] else []).
Proof.
  unfold levelMembers. rewrite filter_app. f_equal.
Qed.

Lemma levelGroupsList_body_lookup groups x p :
  levelGroupsList_body groups x !! p =
  if decide (hasLevels x = true ∧ getLevelPrefix x = Some p)
  then Some (default [] (groups !! p) ++ [varOptionOf x])
  else groups !! p.
Proof.
  unfold levelGroupsList_body.
  destruct (hasLevels x) eqn:Hl;
    [|destruct (decide _) as [[? _]|_]; [discriminate | done]].
  destruct (getLevelPrefix x) as [q|] eqn:Hq;
    [|destruct (decide _) as [[_ ?]|_]; [discriminate | done]].
  destruct (decide (q = p)) as [->|Hne].
  - rewrite decide_True by done.
    rewrite lookup_alter_eq.
    destruct (groups !! p) as [l|] eqn:Hp.
    + by rewrite Hp.
    + by rewrite lookup_insert_eq.
  - rewrite decide_False by (intros [_ [= ?]]; done).
    rewrite lookup_alter_ne by done.
    destruct (groups !! q); [done|]. by rewrite lookup_insert_ne.
Qed.

(** The group filed under [p] lists exactly the level-bearing names with
    prefix [p], in document order; there is no group when there are none. *)
Lemma levelGroups_lookup vars p :
  fold_left levelGroupsList_body vars ∅ !! p =
  match levelMembers p vars with
  | [] => None
  | ms => Some (varOptionOf <$> ms)
  end.
Proof.
  induction vars as [|x vars IH] using rev_ind; [done|].
  rewrite fold_left_app. cbn [fold_left].
  rewrite levelGroupsList_body_lookup, levelMembers_snoc, IH.
  destruct (decide _) as [Hx|Hx].
  - destruct (levelMembers p vars) as [|n ns]; [done|].
    simpl. by rewrite fmap_app.
  - by rewrite app_nil_r.
Qed.

Lemma levelGroups_entries m k es n :
  levelGroupsList (Some m) !! k = Some es →
  n ∈ value <$> es →
  n ∈ variables m ∧ hasLevels n = true ∧ getLevelPrefix n = Some k.
Proof.
  unfold levelGroupsList. rewrite levelGroups_lookup.
  intros Hk Hn.
  assert (es = varOptionOf <$> levelMembers k (variables m)) as ->.
  { destruct (levelMembers k (variables m)); [done|]. by injection Hk as <-. }
  rewrite values_varOptionOf in Hn.
  apply list_elem_of_filter in Hn as [[Hl Hp] Hin]. done.
Qed.

Lemma levelGroups_nonempty m k es :
  levelGroupsList (Some m) !! k = Some es → es ≠ [].
Proof.
  unfold levelGroupsList. rewrite levelGroups_lookup.
  destruct (levelMembers k (variables m)); [done|]. by intros [= <-].
Qed.

(** *** The scalar/group list *)

Lemma scalars_snoc vars x :
  scalars (vars ++ [x]) =
  scalars vars ++ (if decide (hasLevels x = false) then [x] else []).
Proof. unfold scalars. rewrite filter_app. f_equal. Qed.

Lemma variableList_body_mono acc x y :
  y ∈ acc → y ∈ variableList_body acc x.
Proof.
  intros Hy. unfold variableList_body.
  destruct (hasLevels x).
  - destruct (getLevelPrefix x) as [q|]; [|done].
    case_bool_decide; [done|]. apply elem_of_app. by left.
  - apply elem_of_app. by left.
Qed.

Lemma variableList_scalars_sublist vars :
  scalars vars `sublist_of` fold_left variableList_body vars [].
Proof.
  induction vars as [|x vars IH] using rev_ind; [constructor|].
  rewrite fold_left_app, scalars_snoc. cbn [fold_left].
  unfold variableList_body.
  destruct (hasLevels x) eqn:Hl.
  - rewrite decide_False by done. rewrite app_nil_r.
    destruct (getLevelPrefix x) as [q|]; [|done].
    case_bool_decide; [done|]. by apply sublist_inserts_r.
  - rewrite decide_True by done. by apply sublist_app.
Qed.

Lemma variableList_prefix_elem vars p :
  levelMembers p vars ≠ [] → p ∈ fold_left variableList_body vars [].
Proof.
  induction vars as [|x vars IH] using rev_ind; [done|].
  rewrite fold_left_app, levelMembers_snoc. cbn [fold_left].
  destruct (decide _) as [[Hl Hp]|Hx].
  - intros _. unfold variableList_body. rewrite Hl, Hp.
    case_bool_decide; [done|]. apply elem_of_app. right. by apply list_elem_of_singleton.
  - rewrite app_nil_r. intros Hne. by apply variableList_body_mono, IH.
Qed.

Lemma occurrences_app p l1 l2 :
  occurrences p (l1 ++ l2) = (occurrences p l1 + occurrences p l2)%nat.
Proof. unfold occurrences. by rewrite filter_app, length_app. Qed.

Lemma occurrences_zero p l : p ∉ l → occurrences p l = 0%nat.
Proof.
  intros Hp. unfold occurrences.
  destruct (filter (λ x, x = p) l) as [|y ys] eqn:Hf; [done|].
  assert (y ∈ filter (λ x, x = p) l) as Hy by (rewrite Hf; left).
  apply list_elem_of_filter in Hy as [-> Hy]. done.
Qed.

Lemma occurrences_pos p l : p ∈ l → occurrences p l ≠ 0%nat.
Proof.
  intros Hp Hz. unfold occurrences in Hz.
  apply nil_length_inv in Hz.
  by apply (filter_nil_not_elem_of _ _ p Hz).
Qed.

Lemma scalars_cons x vars :
  scalars (x :: vars) =
  (if decide (hasLevels x = false) then [x] else []) ++ scalars vars.
Proof. unfold scalars. rewrite filter_cons. by destruct (decide _). Qed.

Lemma levelMembers_cons p x vars :
  levelMembers p (x :: vars) =
  (if decide (hasLevels x = true ∧ getLevelPrefix x = Some p) then [x] else [])
  ++ levelMembers p vars.
Proof. unfold levelMembers. rewrite filter_cons. by destruct (decide _). Qed.

(** One iteration adds to the count of [p] what a scalar named [p] adds,
    when the iteration is not the one that files a new prefix [p]. *)
Lemma variableList_body_occurrences p acc x :
  p ∈ acc ∨ ¬ (hasLevels x = true ∧ getLevelPrefix x = Some p) →
  occurrences p (variableList_body acc x) =
  (occurrences p acc +
   occurrences p (if decide (hasLevels x = false) then [x] else []))%nat.
Proof.
  intros Hcase. unfold variableList_body.
  destruct (hasLevels x) eqn:Hl.
  - rewrite decide_False by done. cbn.
    destruct (getLevelPrefix x) as [q|] eqn:Hq; [|lia].
    case_bool_decide as Hin; [lia|].
    rewrite occurrences_app.
    assert (q ≠ p) as Hne.
    { intros ->. destruct Hcase as [Hp|Hp]; [done|]. by apply Hp. }
    unfold occurrences at 2. rewrite filter_cons_False by done. cbn. lia.
  - rewrite decide_True by done. apply occurrences_app.
Qed.

Lemma occurrences_fold_no_member p vars acc :
  levelMembers p vars = [] →
  occurrences p (fold_left variableList_body vars acc) =
  (occurrences p acc + occurrences p (scalars vars))%nat.
Proof.
  revert acc. induction vars as [|x vars IH]; intros acc Hnone.
  - cbn. unfold occurrences, scalars. cbn. lia.
  - rewrite levelMembers_cons in Hnone.
    destruct (decide (hasLevels x = true ∧ getLevelPrefix x = Some p))
      as [Hx|Hx]; [done|].
    cbn [fold_left]. rewrite IH by done.
    rewrite variableList_body_occurrences by (by right).
    rewrite scalars_cons, occurrences_app. lia.
Qed.

Lemma occurrences_fold_listed p vars acc :
  p ∈ acc →
  occurrences p (fold_left variableList_body vars acc) =
  (occurrences p acc + occurrences p (scalars vars))%nat.
Proof.
  revert acc. induction vars as [|x vars IH]; intros acc Hin.
  - cbn. unfold occurrences, scalars. cbn. lia.
  - cbn [fold_left]. rewrite IH by (by apply variableList_body_mono).
    rewrite variableList_body_occurrences by (by left).
    rewrite scalars_cons, occurrences_app. lia.
Qed.

(** The first level-bearing name filed under [p] splits the document. *)
Lemma levelMembers_first p vars :
  levelMembers p vars ≠ [] →
  ∃ pre n post, vars = pre ++ n :: post ∧ levelMembers p pre = [] ∧
                hasLevels n = true ∧ getLevelPrefix n = Some p.
Proof.
  induction vars as [|x vars IH]; [done|].
  rewrite levelMembers_cons.
  destruct (decide (hasLevels x = true ∧ getLevelPrefix x = Some p))
    as [[Hl Hp]|Hx].
  - intros _. by exists [], x, vars.
  - intros Hne. destruct (IH Hne) as (pre & n & post & -> & Hpre & Hl & Hp).
    exists (x :: pre), n, post. repeat split; [|done|done].
    rewrite levelMembers_cons, decide_False by done. done.
Qed.

(** The number of times [p] is listed: once for the group unless a scalar
    named [p] came before the first member, plus every scalar named [p]. *)
Lemma variableList_occurrences p pre n post :
  levelMembers p pre = [] →
  hasLevels n = true → getLevelPrefix n = Some p →
  occurrences p (fold_left variableList_body (pre ++ n :: post) []) =
  (Nat.max 1 (occurrences p (scalars pre)) + occurrences p (scalars post))%nat.
Proof.
  intros Hpre Hl Hp.
  rewrite fold_left_app. cbn [fold_left].
  pose proof (occurrences_fold_no_member p pre [] Hpre) as Hacc.
  set (acc := fold_left variableList_body pre []) in *.
  change (occurrences p []) with 0%nat in Hacc. cbn in Hacc.
  assert (p ∈ variableList_body acc n ∧
          occurrences p (variableList_body acc n) =
          Nat.max 1 (occurrences p (scalars pre))) as [Hin Hocc].
  { unfold variableList_body. rewrite Hl, Hp.
    case_bool_decide as Hin.
    - split; [done|]. pose proof (occurrences_pos _ _ Hin). lia.
    - split; [apply elem_of_app; right; by apply list_elem_of_singleton|].
      rewrite occurrences_app, (occurrences_zero _ _ Hin) in *.
      unfold occurrences at 1. rewrite filter_cons_True by done. cbn. lia. }
  rewrite occurrences_fold_listed by done. lia.
Qed.

(** C6 (amended): for every metadata document and every prefix [p]
    extracted from at least one of its level-bearing names, the names with
    prefix [p] are grouped under the single key [p], as entries carrying
    those very names in document order; a group holding one of them is the
    group of [p], so each such name is in exactly one group; [p] is in the
    scalar/group list, max(1, a) + b times, where a and b count the scalar
    names equal to [p] before and after the first level-bearing name with
    prefix [p], hence exactly once unless such a scalar follows that name or
    two precede it. A level-bearing name whose prefix extraction fails or
    is empty is an entry of no group. *)
Theorem classify_groups_by_prefix (m : DomainMetaDataJson) :
  (∀ p, levelMembers p (variables m) ≠ [] →
     (∃ es, levelGroupsList (Some m) !! p = Some es ∧
            value <$> es = levelMembers p (variables m)) ∧
     (∀ n k es, n ∈ levelMembers p (variables m) →
                levelGroupsList (Some m) !! k = Some es →
                n ∈ value <$> es → k = p) ∧
     p ∈ variableList (Some m) ∧
     (∃ pre n post,
        variables m = pre ++ n :: post ∧ levelMembers p pre = [] ∧
        hasLevels n = true ∧ getLevelPrefix n = Some p ∧
        occurrences p (variableList (Some m)) =
          (Nat.max 1 (occurrences p (scalars pre))
           + occurrences p (scalars post))%nat ∧
        (occurrences p (variableList (Some m)) = 1%nat ↔
         (occurrences p (scalars pre) ≤ 1)%nat ∧
         occurrences p (scalars post) = 0%nat))) ∧
  (∀ n k es, hasLevels n = true → getLevelPrefix n = None →
             levelGroupsList (Some m) !! k = Some es →
             n ∉ value <$> es).
Proof.
  split.
  - intros p Hne. repeat split.
    + exists (varOptionOf <$> levelMembers p (variables m)). split.
      * unfold levelGroupsList. rewrite levelGroups_lookup.
        by destruct (levelMembers p (variables m)).
      * apply values_varOptionOf.
    + intros n k es Hn Hk Hin.
      apply list_elem_of_filter in Hn as [[_ Hp] _].
      destruct (levelGroups_entries _ _ _ _ Hk Hin) as (_ & _ & Hpk).
      congruence.
    + by apply variableList_prefix_elem.
    + destruct (levelMembers_first _ _ Hne) as (pre & n & post & Hvars & Hpre & Hl & Hp).
      exists pre, n, post.
      assert (occurrences p (variableList (Some m)) =
              (Nat.max 1 (occurrences p (scalars pre))
               + occurrences p (scalars post))%nat) as Hocc.
      { unfold variableList. rewrite Hvars. by apply variableList_occurrences. }
      repeat split; try done; rewrite Hocc in *; lia.
  - intros n k es Hl Hp Hk Hin.
    destruct (levelGroups_entries _ _ _ _ Hk Hin) as (_ & _ & Hpk).
    congruence.
Qed.

(** C7: a name that does not match the level pattern is appended unchanged
    to the scalar/group list when its turn comes, the scalar names appear
    in that list in document order, and no level group has an entry for
    such a name. *)
Theorem classify_scalars_verbatim (r : string) (vars : list string) :
  (∀ pre n, hasLevels n = false →
     variableList (Some {| reference_time := r; variables := pre ++ [n] |}) =
     variableList (Some {| reference_time := r; variables := pre |}) ++ [n]) ∧
  scalars vars `sublist_of`
    variableList (Some {| reference_time := r; variables := vars |}) ∧
  (∀ n k es, n ∈ vars → hasLevels n = false →
     levelGroupsList (Some {| reference_time := r; variables := vars |}) !! k
       = Some es →
     n ∉ value <$> es).
Proof.
  repeat split.
  - intros pre n Hn. unfold variableList. cbn [variables].
    rewrite fold_left_app. cbn [fold_left].
    unfold variableList_body at 1. by rewrite Hn.
  - apply variableList_scalars_sublist.
  - intros n k es _ Hn Hk Hin.
    destruct (levelGroups_entries _ _ _ _ Hk Hin) as (_ & Hl & _).
    congruence.
Qed.

(** *** Changing the variable *)

Lemma scanLevels_find levels d :
  scanLevels levels d =
  match List.find isDefaultLevel levels with
  | Some l => value l
  | None => d
  end.
Proof.
  induction levels as [|l levels IH]; [done|].
  cbn. by destruct (isDefaultLevel l).
Qed.

Lemma scanLevels_member levels first :
  levels !! 0%nat = Some first →
  ∃ l, l ∈ levels ∧ scanLevels levels (value first) = value l.
Proof.
  intros Hfirst. rewrite scanLevels_find.
  destruct (List.find isDefaultLevel levels) as [l|] eqn:Hfind.
  - exists l. split; [|done].
    apply List.find_some in Hfind as [Hin _]. by apply list_elem_of_In.
  - exists first. split; [|done]. by eapply list_elem_of_lookup_2.
Qed.

(** On a group key the handler sets the variable to the outcome of the
    scan started from the first entry; the group has a first entry. *)
Lemma handleVariableChange_group st m sel levels :
  metaJson st = Some m →
  levelGroupsList (Some m) !! sel = Some levels →
  ∃ first, levels !! 0%nat = Some first ∧
           handleVariableChange sel st =
           setVariable (Some (scanLevels levels (value first))) st.
Proof.
  intros Hm Hsel.
  destruct (levels !! 0%nat) as [first|] eqn:Hfirst.
  - exists first. split; [done|].
    unfold handleVariableChange, render, mbind, Handler_bind.
    by rewrite Hm, Hsel, Hfirst.
  - apply levelGroups_nonempty in Hsel. by destruct levels.
Qed.

(** C10: with a document loaded, a selector that is a key of the derived
    level-group mapping makes [handleVariableChange] complete normally and
    leaves the variable at the name of an entry of that very group, which
    is a name of the document. *)
Theorem handleVariableChange_stays_in_group
    (st : AppState) (m : DomainMetaDataJson) (sel : string)
    (levels : list VarOption) :
  metaJson st = Some m →
  levelGroupsList (Some m) !! sel = Some levels →
  (handleVariableChange sel st).1 = Normal tt ∧
  ∃ l, l ∈ levels ∧
       variable (exec (handleVariableChange sel) st) = Some (value l) ∧
       value l ∈ variables m.
Proof.
  intros Hm Hsel.
  destruct (handleVariableChange_group _ _ _ _ Hm Hsel) as (first & Hfirst & Hrun).
  destruct (scanLevels_member _ _ Hfirst) as (l & Hl & Hscan).
  unfold exec. rewrite Hrun, Hscan. split; [done|].
  exists l. repeat split; [done|].
  eapply levelGroups_entries; [done|]. by apply list_elem_of_fmap_2.
Qed.

(** *** Changing the domain *)

Lemma scanPrefix_first p pre w post d :
  JS.startsWith w p = true →
  (∀ u, u ∈ pre → JS.startsWith u p = false) →
  scanPrefix p (pre ++ w :: post) d = Some w.
Proof.
  intros Hw. induction pre as [|u pre IH]; intros Hpre; cbn.
  - by rewrite Hw.
  - rewrite (Hpre u) by left. apply IH. intros u' Hu'. apply Hpre. by right.
Qed.

Lemma scanPrefix_none p vs d :
  (∀ u, u ∈ vs → JS.startsWith u p = false) → scanPrefix p vs d = d.
Proof.
  induction vs as [|u vs IH]; intros Hvs; [done|]. cbn.
  rewrite (Hvs u) by left. apply IH. intros u' Hu'. apply Hvs. by right.
Qed.

Lemma scanPrefix_cases p vs d :
  scanPrefix p vs d = d ∨ ∃ w, w ∈ vs ∧ scanPrefix p vs d = Some w.
Proof.
  induction vs as [|u vs IH]; [by left|]. cbn.
  destruct (JS.startsWith u p).
  - right. exists u. split; [left|done].
  - destruct IH as [IH|(w & Hw & IH)]; [by left|].
    right. exists w. split; [by right|done].
Qed.

Lemma handleDomainChange_loaded fetch d st status meta v :
  fetch (metaDataUrl d) = Response true status (Some meta) →
  variable st = Some v →
  handleDomainChange fetch d st =
  (Normal tt,
   {| loading := false; domain := d; variable := reconciled v meta;
      metaJson := Some meta;
      modelRun := Some (Date_parse (reference_time meta));
      selectedTime := selectedTime st |}).
Proof.
  intros Hfetch Hv.
  unfold handleDomainChange, render, try_finally, try_catch, fetchMetaData,
    reconciled, mbind, Handler_bind.
  cbn. rewrite Hfetch, Hv. cbn.
  case_bool_decide; cbn; [done|].
  by destruct (getLevelPrefix v).
Qed.

Lemma handleDomainChange_failed fetch d st :
  fetchFailed (fetch (metaDataUrl d)) = true →
  handleDomainChange fetch d st =
  (Normal tt,
   {| loading := false; domain := d; variable := variable st;
      metaJson := metaJson st; modelRun := modelRun st;
      selectedTime := selectedTime st |}).
Proof.
  intros Hfail.
  unfold handleDomainChange, render, try_finally, try_catch, fetchMetaData,
    mbind, Handler_bind.
  cbn. destruct (fetch (metaDataUrl d)) as [|[] status [meta|]]; done.
Qed.

(** C1 (amended): when the metadata fetch of a domain change fails, the
    handler leaves the variable, the metadata document, the model run and
    the display time as they were and clears the loading indicator; the
    domain, set before the request is issued, stays at the requested one. *)
Theorem handleDomainChange_failure_keeps_selection
    (fetch : string → FetchOutcome) (newDomain : string) (st : AppState) :
  fetchFailed (fetch (metaDataUrl newDomain)) = true →
  let st' := exec (handleDomainChange fetch newDomain) st in
  variable st' = variable st ∧ metaJson st' = metaJson st ∧
  modelRun st' = modelRun st ∧ selectedTime st' = selectedTime st ∧
  loading st' = false ∧ domain st' = newDomain.
Proof.
  intros Hfail. unfold exec.
  by rewrite handleDomainChange_failed.
Qed.

(** C4: a domain change whose fetch succeeds, started with the variable at
    a name [v], completes without error, installs the new document, and
    leaves [v] when the document lists it; otherwise, when [v] has a group
    prefix and some entry starts with it, selects the first such entry in
    document order; and with no prefix or no such entry selects the entry
    at index 0. *)
Theorem handleDomainChange_reconciles
    (fetch : string → FetchOutcome) (newDomain : string) (st : AppState)
    (status : Z) (meta : DomainMetaDataJson) (v : string) :
  fetch (metaDataUrl newDomain) = Response true status (Some meta) →
  variable st = Some v →
  let st' := exec (handleDomainChange fetch newDomain) st in
  (handleDomainChange fetch newDomain st).1 = Normal tt ∧
  metaJson st' = Some meta ∧
  (v ∈ variables meta → variable st' = Some v) ∧
  (v ∉ variables meta →
   ∀ p pre w post,
     getLevelPrefix v = Some p →
     variables meta = pre ++ w :: post →
     JS.startsWith w p = true →
     (∀ u, u ∈ pre → JS.startsWith u p = false) →
     variable st' = Some w) ∧
  (v ∉ variables meta →
   (getLevelPrefix v = None ∨
    ∃ p, getLevelPrefix v = Some p ∧
         ∀ u, u ∈ variables meta → JS.startsWith u p = false) →
   variable st' = variables meta !! 0%nat).
Proof.
  intros Hfetch Hv. unfold exec.
  rewrite (handleDomainChange_loaded _ _ _ _ _ _ Hfetch Hv). cbn.
  unfold reconciled. repeat split.
  - intros Hin. by rewrite bool_decide_eq_true_2.
  - intros Hnin p pre w post Hp Hvars Hw Hpre.
    rewrite bool_decide_eq_false_2 by done.
    rewrite Hp, Hvars. by apply scanPrefix_first.
  - intros Hnin Hcase.
    rewrite bool_decide_eq_false_2 by done.
    destruct Hcase as [->|(p & -> & Hnone)]; [done|].
    by apply scanPrefix_none.
Qed.

(** *** The selection invariant *)

Lemma variableList_elem vars x :
  x ∈ fold_left variableList_body vars [] →
  x ∈ scalars vars ∨ levelMembers x vars ≠ [].
Proof.
  induction vars as [|y vars IH] using rev_ind.
  - cbn. by intros ?%elem_of_nil.
  - rewrite fold_left_app, scalars_snoc, levelMembers_snoc. cbn [fold_left].
    set (acc := fold_left variableList_body vars []) in *.
    assert (x ∈ acc →
            x ∈ scalars vars ++ (if decide (hasLevels y = false) then [y] else [])
            ∨ levelMembers x vars ++
                (if decide (hasLevels y = true ∧ getLevelPrefix y = Some x)
                 then [y] else []) ≠ []) as Hold.
    { intros [Hs|Hl]%IH.
      - left. apply elem_of_app. by left.
      - right. by destruct (levelMembers x vars). }
    unfold variableList_body.
    destruct (hasLevels y) eqn:Hl.
    + destruct (getLevelPrefix y) as [q|] eqn:Hq; [|done].
      case_bool_decide; [done|].
      intros [Hx| ->%list_elem_of_singleton]%elem_of_app; [by apply Hold|].
      right. rewrite decide_True by done.
      by destruct (levelMembers q vars).
    + intros [Hx| ->%list_elem_of_singleton]%elem_of_app; [by apply Hold|].
      left. rewrite decide_True by done.
      apply elem_of_app. right. by apply list_elem_of_singleton.
Qed.

Lemma reconciled_member v meta :
  variables meta ≠ [] → ∃ w, reconciled v meta = Some w ∧ w ∈ variables meta.
Proof.
  intros Hne. unfold reconciled.
  assert (∃ w, variables meta !! 0%nat = Some w ∧ w ∈ variables meta)
    as (w0 & Hw0 & Hin0).
  { destruct (variables meta) as [|w0 ws]; [done|]. exists w0. split; [done|left]. }
  case_bool_decide as Hin; [by exists v|].
  destruct (getLevelPrefix v) as [p|]; [|by exists w0].
  destruct (scanPrefix_cases p (variables meta) (variables meta !! 0%nat))
    as [->|(w & Hw & ->)]; [by exists w0 | by exists w].
Qed.

Lemma handleDomainChange_inv fetch d st :
  loadsNonEmpty (DomainChange fetch d) = true →
  selectionInv st → selectionInv (exec (handleDomainChange fetch d) st).
Proof.
  intros Hne (v & Hv & Hin). unfold exec.
  destruct (fetchFailed (fetch (metaDataUrl d))) eqn:Hfail.
  - rewrite handleDomainChange_failed by done. by exists v.
  - cbn in Hne.
    destruct (fetch (metaDataUrl d)) as [|[] status [meta|]] eqn:Hfetch;
      try discriminate.
    rewrite (handleDomainChange_loaded _ _ _ _ _ _ Hfetch Hv).
    apply negb_true_iff, bool_decide_eq_false in Hne.
    destruct (reconciled_member v meta Hne) as (w & Hw & Hwin).
    exists w. cbn. split; [done|]. by intros ? [= <-].
Qed.

Lemma handleVariableChange_inv sel st :
  is_Some (metaJson st) →
  sel ∈ variableList (metaJson st) →
  selectionInv st → selectionInv (exec (handleVariableChange sel) st).
Proof.
  intros [m Hm] Hsel _.
  destruct (levelGroupsList (Some m) !! sel) as [levels|] eqn:Hgroup.
  - destruct (handleVariableChange_group _ _ _ _ Hm Hgroup)
      as (first & Hfirst & Hrun).
    destruct (scanLevels_member _ _ Hfirst) as (l & Hl & Hscan).
    unfold exec. rewrite Hrun, Hscan. cbn.
    exists (value l). split; [done|].
    rewrite Hm. intros ? [= <-].
    eapply levelGroups_entries; [done|]. by apply list_elem_of_fmap_2.
  - unfold exec, handleVariableChange, render, mbind, Handler_bind.
    rewrite Hm, Hgroup. cbn. exists sel. split; [done|].
    rewrite Hm. intros ? [= <-].
    rewrite Hm in Hsel. apply variableList_elem in Hsel as [Hs|Hl].
    + by apply list_elem_of_filter in Hs as [_ ?].
    + unfold levelGroupsList in Hgroup. rewrite levelGroups_lookup in Hgroup.
      by destruct (levelMembers sel (variables m)).
Qed.

Lemma levelSelectOptions_member l st :
  l ∈ levelSelectOptions st →
  ∃ m, metaJson st = Some m ∧ l ∈ variables m.
Proof.
  unfold levelSelectOptions, currentLevels.
  intros (o & -> & Ho)%list_elem_of_fmap.
  apply list_elem_of_In, List.filter_In in Ho as [Ho%list_elem_of_In _].
  destruct (variable st) as [v|]; [|by apply elem_of_nil in Ho].
  destruct (currentLevelGroup v) as [g|]; [|by apply elem_of_nil in Ho].
  destruct (metaJson st) as [m|] eqn:Hm.
  - destruct (levelGroupsList (Some m) !! g) as [levels|] eqn:Hg;
      [|by apply elem_of_nil in Ho].
    exists m. split; [done|].
    eapply levelGroups_entries; [done|]. by apply list_elem_of_fmap_2.
  - cbn in Ho. rewrite lookup_empty in Ho. by apply elem_of_nil in Ho.
Qed.

Lemma step_inv st e :
  enabled st e = true → loadsNonEmpty e = true →
  selectionInv st → selectionInv (step st e).
Proof.
  destruct e as [fetch|fetch d|sel|l]; cbn [enabled]; intros Hen Hne Hinv.
  - done.
  - by apply handleDomainChange_inv.
  - apply andb_true_iff in Hen as [Hen Hsel%bool_decide_eq_true].
    apply negb_true_iff, orb_false_iff in Hen
      as [_ Hmeta%negb_false_iff%bool_decide_eq_true].
    apply handleVariableChange_inv; [done| |done].
    unfold variableSelectOptions in Hsel.
    by apply list_elem_of_In, List.filter_In in Hsel as [?%list_elem_of_In _].
  - apply andb_true_iff in Hen as [_ Hl%bool_decide_eq_true].
    apply levelSelectOptions_member in Hl as (m & Hm & Hin).
    exists l. split; [done|]. cbn. rewrite Hm. by intros ? [= <-].
Qed.

(** C5 (amended): the invariant, the variable is a name of the loaded
    metadata document, is kept by every transition the rendered selectors
    can deliver (a selector fires only while enabled and only with one of
    its options), as long as each document a domain change loads lists at
    least one variable; so it holds in every state reached that way from a
    state in which it holds. *)
Theorem selection_invariant_preserved (st : AppState) (es : list event) :
  selectionInv st →
  enabled_trace st es = true →
  forallb loadsNonEmpty es = true →
  selectionInv (run st es).
Proof.
  revert st. induction es as [|e es IH]; intros st Hinv Hen Hne; [done|].
  cbn in Hen, Hne.
  apply andb_true_iff in Hen as [He Hes].
  apply andb_true_iff in Hne as [Hne Hnes].
  cbn. apply IH; [|done|done]. by apply step_inv.
Qed.

(** *** The display time *)

Lemma step_selectedTime st e : selectedTime (step st e) = selectedTime st.
Proof.
  destruct e as [fetch|fetch d|sel|l]; unfold_handlers.
  - by destruct (fetch _) as [|[] status [meta|]].
  - destruct (fetch _) as [|[] status [meta|]]; cbn; try done.
    destruct (variable st) as [v|]; cbn; [|done].
    case_bool_decide; cbn; [done|].
    by destruct (getLevelPrefix v).
  - destruct (levelGroupsList (metaJson st) !! sel) as [levels|]; [|done].
    by destruct (levels !! 0%nat).
  - done.
Qed.

Lemma run_selectedTime st es : selectedTime (run st es) = selectedTime st.
Proof.
  revert st. induction es as [|e es IH]; intros st; [done|].
  change (selectedTime (run (step st e) es) = selectedTime st).
  by rewrite IH, step_selectedTime.
Qed.

Lemma next_hour (now : Z) :
  JS.Day now * JS.msPerDay + (JS.HourFromTime now + 1) * JS.msPerHour =
  (now / JS.msPerHour + 1) * JS.msPerHour.
Proof.
  unfold JS.Day, JS.HourFromTime, JS.msPerDay, JS.msPerHour.
  replace 86400000 with (3600000 * 24) by done.
  rewrite <- Z.div_div by lia.
  pose proof (Z.div_mod (now / 3600000) 24 ltac:(lia)).
  lia.
Qed.

(** C9: the display time is fixed by the initialiser of its state cell as
    the first whole UTC hour after the current time, with minutes, seconds
    and milliseconds at zero; no event of the session changes it, and the
    overlay address of every later state is built from it. *)
Theorem selectedTime_fixed_at_startup (now : Z) :
  - JS.maxTimeValue ≤ now ≤ JS.maxTimeValue - JS.msPerHour →
  ∃ t, selectedTime (initialState (Some now)) = Some t ∧
       now < t ≤ now + JS.msPerHour ∧
       t mod JS.msPerHour = 0 ∧
       JS.MinFromTime t = 0 ∧ JS.SecFromTime t = 0 ∧ JS.msFromTime t = 0 ∧
       ∀ es, let st := run (initialState (Some now)) es in
             selectedTime st = Some t ∧
             ∀ r, modelRun st = Some r →
                  updateOMLayer st =
                  Some ("om://" ++
                        getOMUrl (domain st)
                          (match variable st with
                           | Some v => v
                           | None => "undefined"
                           end) r (Some t))%string.
Proof.
  intros Hrange.
  exists ((now / JS.msPerHour + 1) * JS.msPerHour).
  assert (selectedTime (initialState (Some now)) =
          Some ((now / JS.msPerHour + 1) * JS.msPerHour)) as Hinit.
  { cbn. rewrite next_hour. unfold JS.TimeClip.
    unfold JS.maxTimeValue, JS.msPerHour in *.
    pose proof (Z.div_mod now 3600000 ltac:(lia)).
    pose proof (Z.mod_pos_bound now 3600000 ltac:(lia)).
    rewrite (proj2 (Z.leb_le _ _)); [done|]. lia. }
  unfold JS.MinFromTime, JS.SecFromTime, JS.msFromTime, JS.msPerHour,
    JS.maxTimeValue in *.
  pose proof (Z.div_mod now 3600000 ltac:(lia)).
  pose proof (Z.mod_pos_bound now 3600000 ltac:(lia)).
  set (h := now / 3600000) in *.
  repeat split.
  - done.
  - lia.
  - lia.
  - by apply Z.mod_mul.
  - replace ((h + 1) * 3600000) with ((h + 1) * 60 * 60000) by lia.
    rewrite Z.div_mul by lia. by apply Z.mod_mul.
  - replace ((h + 1) * 3600000) with ((h + 1) * 60 * 60 * 1000) by lia.
    rewrite Z.div_mul by lia. by apply Z.mod_mul.
  - replace ((h + 1) * 3600000) with ((h + 1) * 3600 * 1000) by lia.
    by apply Z.mod_mul.
  - by rewrite run_selectedTime.
  - intros r Hr. unfold updateOMLayer.
    by rewrite Hr, run_selectedTime, Hinit.
Qed.

(** *** Further properties of the handlers *)

(** X1: whatever the state and whatever the network answers, a domain
    change completes without an exception, ends with the loading indicator
    cleared and the domain at the requested one, never touches the display
    time, and leaves in the metadata and model-run cells the served document
    and its parsed reference time, or their old values when the fetch fails. *)
Theorem handleDomainChange_settles (fetch : string → FetchOutcome)
    (newDomain : string) (st : AppState) :
  (handleDomainChange fetch newDomain st).1 = Normal tt ∧
  let st' := exec (handleDomainChange fetch newDomain) st in
  loading st' = false ∧ domain st' = newDomain ∧
  selectedTime st' = selectedTime st ∧
  metaJson st' = served fetch newDomain Some (metaJson st) ∧
  modelRun st' =
    served fetch newDomain
      (fun doc => Some (Date_parse (reference_time doc))) (modelRun st).
Proof.
  unfold served. unfold_handlers.
  destruct (fetch (metaDataUrl newDomain)) as [|[] status [doc|]]; cbn; try done.
  destruct (variable st) as [v|]; cbn; [|done].
  case_bool_decide; cbn; [done|].
  by destruct (getLevelPrefix v).
Qed.


Lemma reconciled_Some v meta w :
  reconciled v meta = Some w → w ∈ variables meta.
Proof.
  unfold reconciled. case_bool_decide as Hin; [by intros [= <-]|].
  assert (variables meta !! 0%nat = Some w → w ∈ variables meta) as Hhead
    by apply list_elem_of_lookup_2.
  destruct (getLevelPrefix v) as [p|]; [|done].
  destruct (scanPrefix_cases p (variables meta) (variables meta !! 0%nat))
    as [->|(w' & Hw' & ->)]; [done|]. by intros [= <-].
Qed.

Lemma handleDomainChange_loaded_undefined fetch d st status meta :
  fetch (metaDataUrl d) = Response true status (Some meta) →
  variable st = None →
  handleDomainChange fetch d st =
  (Normal tt,
   {| loading := false; domain := d; variable := None;
      metaJson := Some meta;
      modelRun := Some (Date_parse (reference_time meta));
      selectedTime := selectedTime st |}).
Proof.
  intros Hfetch Hv. unfold_handlers. rewrite Hfetch, Hv. by cbn.
Qed.

(** The state a successful domain change ends in, by the variable cell. *)
Lemma handleDomainChange_result fetch d st status meta :
  fetch (metaDataUrl d) = Response true status (Some meta) →
  exec (handleDomainChange fetch d) st =
  {| loading := false; domain := d;
     variable := match variable st with
                 | Some v => reconciled v meta
                 | None => None
                 end;
     metaJson := Some meta;
     modelRun := Some (Date_parse (reference_time meta));
     selectedTime := selectedTime st |}.
Proof.
  intros Hfetch. unfold exec.
  destruct (variable st) as [v|] eqn:Hv.
  - by rewrite (handleDomainChange_loaded _ _ _ _ _ _ Hfetch Hv).
  - by rewrite (handleDomainChange_loaded_undefined _ _ _ _ _ Hfetch Hv).
Qed.

(** X3: a domain change is idempotent: repeating it under the same network
    answer changes nothing more, in every state and for every answer. *)
Theorem handleDomainChange_idempotent (fetch : string → FetchOutcome)
    (newDomain : string) (st : AppState) :
  exec (handleDomainChange fetch newDomain)
    (exec (handleDomainChange fetch newDomain) st)
  = exec (handleDomainChange fetch newDomain) st.
Proof.
  destruct (fetchFailed (fetch (metaDataUrl newDomain))) eqn:Hfail.
  - unfold exec. by rewrite !handleDomainChange_failed.
  - destruct (fetch (metaDataUrl newDomain)) as [|[] status [meta|]] eqn:Hfetch;
      try discriminate.
    rewrite !(handleDomainChange_result _ _ _ _ _ Hfetch). cbn.
    destruct (variable st) as [v|]; [|done].
    destruct (reconciled v meta) as [w|] eqn:Hw; [|done].
    apply reconciled_Some in Hw.
    unfold reconciled. by rewrite bool_decide_eq_true_2.
Qed.

(** X4: when the variable is listed by document B, changing the domain to
    B and then to A ends in the same state as changing to A directly; and
    when A lists the variable too, the variable is the one before both
    changes. *)
Theorem handleDomainChange_round_trip
    (fetchA fetchB : string → FetchOutcome) (dA dB : string) (st : AppState)
    (sA sB : Z) (A B : DomainMetaDataJson) (v : string) :
  fetchA (metaDataUrl dA) = Response true sA (Some A) →
  fetchB (metaDataUrl dB) = Response true sB (Some B) →
  variable st = Some v →
  v ∈ variables B →
  exec (handleDomainChange fetchA dA) (exec (handleDomainChange fetchB dB) st)
  = exec (handleDomainChange fetchA dA) st ∧
  (v ∈ variables A →
   variable (exec (handleDomainChange fetchA dA)
               (exec (handleDomainChange fetchB dB) st)) = Some v).
Proof.
  intros HA HB Hv HinB.
  rewrite !(handleDomainChange_result _ _ _ _ _ HA).
  rewrite (handleDomainChange_result _ _ _ _ _ HB). cbn. rewrite Hv.
  assert (reconciled v B = Some v) as ->
    by (unfold reconciled; by rewrite bool_decide_eq_true_2).
  split; [done|].
  intros HinA. unfold reconciled. by rewrite bool_decide_eq_true_2.
Qed.

Lemma step_runCoherent st e : runCoherent st → runCoherent (step st e).
Proof.
  unfold runCoherent. intros Hco.
  destruct e as [fetch|fetch d|sel|l]; unfold_handlers.
  - by destruct (fetch _) as [|[] status [doc|]].
  - destruct (fetch _) as [|[] status [doc|]]; cbn; try done.
    destruct (variable st) as [v|]; cbn; [|done].
    case_bool_decide; cbn; [done|].
    by destruct (getLevelPrefix v).
  - destruct (levelGroupsList (metaJson st) !! sel) as [levels|]; [|done].
    by destruct (levels !! 0%nat).
  - done.
Qed.

(** X5: in every state of every session, whatever events occur and
    whatever the network answers, the model run is the parsed reference time
    of the metadata document currently loaded, and there is no model run
    while no document is loaded. *)
Theorem modelRun_follows_metaJson (now : JS.Date) (es : list event) :
  runCoherent (run (initialState now) es).
Proof.
  assert (∀ st, runCoherent st → runCoherent (run st es)) as Hrun.
  { induction es as [|e es IH]; intros st Hco; [done|].
    apply (IH (step st e)). by apply step_runCoherent. }
  by apply Hrun.
Qed.

(** *** Further properties of the derived menus *)

Lemma levelGroups_is_Some m k :
  is_Some (levelGroupsList (Some m) !! k) ↔ levelMembers k (variables m) ≠ [].
Proof.
  unfold levelGroupsList. rewrite levelGroups_lookup.
  destruct (levelMembers k (variables m)); split; try done.
Qed.

(** X6: the entries of the variable menu are exactly the scalar names of
    the document and the keys of the level-group mapping, and the keys of
    that mapping are exactly the non-empty prefixes extracted from the
    level-bearing names of the document. *)
Theorem menu_entries_and_group_keys (m : DomainMetaDataJson) :
  (∀ x, x ∈ variableList (Some m) ↔
        (x ∈ variables m ∧ hasLevels x = false) ∨
        is_Some (levelGroupsList (Some m) !! x)) ∧
  (∀ k, is_Some (levelGroupsList (Some m) !! k) ↔
        ∃ n, n ∈ variables m ∧ hasLevels n = true ∧ getLevelPrefix n = Some k).
Proof.
  split.
  - intros x. rewrite levelGroups_is_Some. split.
    + intros [Hs|Hl]%variableList_elem; [left|by right].
      apply list_elem_of_filter in Hs as [? ?]. done.
    + intros [[Hin Hl]|Hne].
      * eapply elem_of_sublist; [|apply variableList_scalars_sublist].
        by apply list_elem_of_filter.
      * by apply variableList_prefix_elem.
  - intros k. rewrite levelGroups_is_Some. split.
    + intros Hne. destruct (levelMembers k (variables m)) as [|n ns] eqn:Hmem; [done|].
      exists n.
      assert (n ∈ levelMembers k (variables m)) as Hn by (rewrite Hmem; left).
      apply list_elem_of_filter in Hn as [[? ?] ?]. done.
    + intros (n & Hin & Hl & Hp) Hnil.
      assert (n ∈ levelMembers k (variables m)) as Hn
        by (by apply list_elem_of_filter).
      rewrite Hnil in Hn. by apply elem_of_nil in Hn.
Qed.

Lemma levelMembers_snoc_nil p vars x :
  levelMembers p (vars ++ [x]) = [] → levelMembers p vars = [].
Proof.
  rewrite levelMembers_snoc. by intros [? _]%app_eq_nil.
Qed.

(** X7: when the names of the document are pairwise distinct, the entries
    of every level group are pairwise distinct; and when moreover no scalar
    name is also the prefix of a level-bearing name, the entries of the
    variable menu are pairwise distinct. *)
Theorem menus_without_duplicates (m : DomainMetaDataJson) :
  NoDup (variables m) →
  (∀ k es, levelGroupsList (Some m) !! k = Some es → NoDup (value <$> es)) ∧
  ((∀ n, n ∈ variables m → hasLevels n = false →
         levelMembers n (variables m) = []) →
   NoDup (variableList (Some m))).
Proof.
  intros Hnd. split.
  - intros k es Hk.
    unfold levelGroupsList in Hk. rewrite levelGroups_lookup in Hk.
    assert (es = varOptionOf <$> levelMembers k (variables m)) as ->.
    { destruct (levelMembers k (variables m)); [done|]. by injection Hk as <-. }
    rewrite values_varOptionOf. by apply NoDup_filter.
  - unfold variableList. generalize dependent (variables m).
    intros vars. induction vars as [|x vars IH] using rev_ind;
      intros Hnd Hsc; [constructor|].
    apply NoDup_app in Hnd as (Hnd & Hfresh & _).
    assert (NoDup (fold_left variableList_body vars [])) as Hacc.
    { apply IH; [done|]. intros n Hn Hl.
      eapply levelMembers_snoc_nil, Hsc; [|done]. apply elem_of_app. by left. }
    rewrite fold_left_app. cbn [fold_left].
    unfold variableList_body at 1.
    destruct (hasLevels x) eqn:Hl.
    + destruct (getLevelPrefix x) as [q|]; [|done].
      case_bool_decide as Hin; [done|].
      apply NoDup_app. repeat split; [done| |apply NoDup_singleton].
      intros y Hy ->%list_elem_of_singleton. done.
    + apply NoDup_app. repeat split; [done| |apply NoDup_singleton].
      intros y Hy ->%list_elem_of_singleton.
      apply variableList_elem in Hy as [Hs|Hmem].
      * apply list_elem_of_filter in Hs as [_ Hs].
        apply (Hfresh x Hs). by apply list_elem_of_singleton.
      * apply Hmem. eapply levelMembers_snoc_nil, Hsc; [|done].
        apply elem_of_app. right. by apply list_elem_of_singleton.
Qed.

(** X8: after the variable selector has chosen a group key, the level
    selector lists that very group and the variable selector shows the key,
    when the key is one of [levelGroupVariables]; otherwise there is no
    level selector although the variable is a level-bearing name. *)
Theorem handleVariableChange_shows_levels
    (st : AppState) (m : DomainMetaDataJson) (sel : string)
    (levels : list VarOption) :
  metaJson st = Some m →
  levelGroupsList (Some m) !! sel = Some levels →
  let st' := exec (handleVariableChange sel) st in
  ∃ v, variable st' = Some v ∧ hasLevels v = true ∧
       (sel ∈ levelGroupVariables →
        currentLevels st' = levels ∧ variableSelectValue v = sel) ∧
       (sel ∉ levelGroupVariables →
        currentLevels st' = [] ∧ variableSelectValue v = v).
Proof.
  intros Hm Hsel.
  destruct (handleVariableChange_group _ _ _ _ Hm Hsel) as (first & Hfirst & Hrun).
  destruct (scanLevels_member _ _ Hfirst) as (l & Hl & Hscan).
  unfold exec. rewrite Hrun, Hscan. cbn.
  assert (value l ∈ value <$> levels) as Hin by (by apply list_elem_of_fmap_2).
  destruct (levelGroups_entries _ _ _ _ Hsel Hin) as (_ & Hlev & Hp).
  exists (value l). split; [done|]. split; [done|].
  unfold currentLevels, variableSelectValue, currentLevelGroup. cbn.
  rewrite Hp, Hm. split; intros Hg.
  - rewrite bool_decide_eq_true_2 by done. by rewrite Hsel.
  - by rewrite bool_decide_eq_false_2.
Qed.

(** X9: choosing one of the options the level selector offers keeps the
    level selector as it is: the same group is listed, with the same
    options, and the chosen name is one of them. *)
Theorem handleLevelChange_keeps_levels (st : AppState) (l : string) :
  l ∈ levelSelectOptions st →
  let st' := exec (handleLevelChange l) st in
  variable st' = Some l ∧
  currentLevels st' = currentLevels st ∧
  levelSelectOptions st' = levelSelectOptions st ∧
  l ∈ levelSelectOptions st'.
Proof.
  intros Hl.
  assert (currentLevels (exec (handleLevelChange l) st) = currentLevels st)
    as Hsame.
  { revert Hl. unfold levelSelectOptions, currentLevels. cbn.
    intros (o & -> & Ho)%list_elem_of_fmap.
    apply list_elem_of_In, List.filter_In in Ho as [Ho%list_elem_of_In _].
    destruct (variable st) as [v|]; [|by apply elem_of_nil in Ho].
    unfold currentLevelGroup in *.
    destruct (getLevelPrefix v) as [g|]; [|by apply elem_of_nil in Ho].
    case_bool_decide as Hg; [|by apply elem_of_nil in Ho].
    destruct (metaJson st) as [m|] eqn:Hm;
      [|cbn in Ho; rewrite lookup_empty in Ho; by apply elem_of_nil in Ho].
    destruct (levelGroupsList (Some m) !! g) as [levels|] eqn:Hlevels;
      [|by apply elem_of_nil in Ho].
    assert (value o ∈ value <$> levels) as Hin by (by apply list_elem_of_fmap_2).
    destruct (levelGroups_entries _ _ _ _ Hlevels Hin) as (_ & _ & ->).
    rewrite bool_decide_eq_true_2 by done. by rewrite Hlevels. }
  assert (levelSelectOptions (exec (handleLevelChange l) st)
          = levelSelectOptions st) as Hopts
    by (unfold levelSelectOptions; by rewrite Hsame).
  cbn zeta. repeat split; [done|done|]. by rewrite Hopts.
Qed.

(** X10: the text of a variable option is never empty for a non-empty
    name: a missing table entry or an empty label falls back to the name
    itself, and a non-empty label of the first table entry for the name is
    used as it is. *)
Theorem getVariableLabel_fallback (v : string) :
  (v ≠ ""%string → getVariableLabel v ≠ ""%string) ∧
  ((∀ o, o ∈ variableOptions → value o ≠ v) → getVariableLabel v = v) ∧
  (∀ pre o post,
     variableOptions = pre ++ o :: post → value o = v →
     (∀ o', o' ∈ pre → value o' ≠ v) →
     getVariableLabel v = if String.eqb (label o) "" then v else label o).
Proof.
  unfold getVariableLabel. repeat split.
  - intros Hv.
    destruct (List.find _ variableOptions) as [o|]; [|done].
    destruct (String.eqb (label o) "") eqn:Hlabel; [done|].
    by apply String.eqb_neq in Hlabel.
  - intros Hnone.
    destruct (List.find _ variableOptions) as [o|] eqn:Hfind; [|done].
    apply List.find_some in Hfind as [Hin Heq%String.eqb_eq].
    by apply list_elem_of_In, Hnone in Hin.
  - intros pre o post -> Hv Hpre.
    induction pre as [|o' pre IH]; cbn.
    + by rewrite (proj2 (String.eqb_eq _ _) Hv).
    + assert (value o' ≠ v) as Hne by (apply Hpre; left).
      rewrite (proj2 (String.eqb_neq _ _) Hne).
      apply IH. intros o'' Ho''. apply Hpre. by right.
Qed.

End App.

(** ** Closed instances: the reference examples of the specification *)

Local Abbreviation sample_variableList :=
  (variableList Sample.LEVEL_REGEX Sample.LEVEL_PREFIX).
Local Abbreviation sample_levelGroupsList :=
  (levelGroupsList Sample.LEVEL_REGEX Sample.LEVEL_PREFIX Sample.variableOptions).
Local Abbreviation sample_handleDomainChange :=
  (handleDomainChange Sample.LEVEL_PREFIX Sample.Date_parse).
Local Abbreviation sample_handleVariableChange :=
  (handleVariableChange Sample.LEVEL_REGEX Sample.LEVEL_PREFIX
     Sample.variableOptions).
Local Abbreviation sample_run :=
  (run Sample.LEVEL_REGEX Sample.LEVEL_PREFIX Sample.variableOptions
     Sample.Date_parse).
Local Abbreviation sample_enabled_trace :=
  (enabled_trace Sample.LEVEL_REGEX Sample.LEVEL_PREFIX Sample.variableOptions
     Sample.levelGroupVariables Sample.Date_parse).

Example civil_epoch : JS.civil 0 = (1970, 1, 1).
Proof. reflexivity. Qed.

Example civil_leap_day : JS.civil 19782 = (2024, 2, 29).
Proof. reflexivity. Qed.

Example civil_before_epoch : JS.civil (-1) = (1969, 12, 31).
Proof. reflexivity. Qed.

Example pad_one_digit : pad (Some 5) = "05"%string.
Proof. reflexivity. Qed.

Example pad_not_a_number : pad None = "NaN"%string.
Proof. reflexivity. Qed.

Example sample_parse :
  Sample.parse "temperature_850hPa" = Some ("temperature", "850", "hPa")%string ∧
  Sample.parse "wind_speed_10m" = Some ("wind_speed", "10", "m")%string ∧
  Sample.parse "cape" = None.
Proof. by vm_compute. Qed.

(** Every field of a date is written with exactly two digits. *)
Lemma pad_two_digits (n : Z) : 0 ≤ n < 100 → String.length (pad (Some n)) = 2%nat.
Proof.
  intros Hn.
  assert (Forall (fun k => String.length (pad (Some k)) = 2%nat) (seqZ 0 100))
    as Hall by (apply Forall_forall; intros k Hk; revert k Hk;
                apply Forall_forall; vm_compute; repeat constructor).
  eapply Forall_forall in Hall; [done|].
  apply elem_of_seqZ. lia.
Qed.

(** C3: the overlay address of domain dwd_icon_d2, variable temperature_2m,
    model run 2024-05-01T06:00Z (time value 1714543200000) and display time
    2024-05-01T07:00Z (time value 1714546800000) is the reference string of
    the specification, month, day, hour and minute on two digits. *)
Theorem getOMUrl_reference_example :
  (JS.civil (JS.Day 1714543200000), JS.HourFromTime 1714543200000,
   JS.MinFromTime 1714543200000, 1714543200000 mod 60000) = ((2024, 5, 1), 6, 0, 0) ∧
  (JS.civil (JS.Day 1714546800000), JS.HourFromTime 1714546800000,
   JS.MinFromTime 1714546800000, 1714546800000 mod 60000) = ((2024, 5, 1), 7, 0, 0) ∧
  getOMUrl "dwd_icon_d2" "temperature_2m" (Some 1714543200000) (Some 1714546800000)
  = "https://s3.servert.ch/data_spatial/dwd_icon_d2/2024/05/01/0600Z/2024-05-01T0700.om?variable=temperature_2m"%string.
Proof. by vm_compute. Qed.

Lemma append_assoc (a b c : string) : ((a ++ b) ++ c = a ++ b ++ c)%string.
Proof.
  induction a as [|x a IH]; [reflexivity|].
  change (String x ((a ++ b) ++ c) = String x (a ++ b ++ c))%string.
  by rewrite IH.
Qed.

(** What the metadata fetch returns, by the answer of the network at the
    address it requests. *)
Lemma fetchMetaData_answer fetch d st :
  match fetch (metaDataUrl d) with
  | Response true _ (Some doc) => fetchMetaData fetch d st = (Normal doc, st)
  | _ => ∃ e, fetchMetaData fetch d st = (Throw e, st)
  end.
Proof.
  unfold fetchMetaData.
  destruct (fetch (metaDataUrl d)) as [|[] status [doc|]]; cbn; eauto.
Qed.

(** A domain change, and the mount effect, install the document the network
    serves at the address of the domain. *)
Lemma metaJson_installed LEVEL_PREFIX Date_parse fetch d st status doc :
  fetch (metaDataUrl d) = Response true status (Some doc) →
  metaJson (exec (handleDomainChange LEVEL_PREFIX Date_parse fetch d) st)
    = Some doc ∧
  (domain st = d → metaJson (exec (initMap Date_parse fetch) st) = Some doc).
Proof.
  intros Hfetch. split.
  - unfold exec, handleDomainChange, render, try_finally, try_catch,
      fetchMetaData, getLevelPrefix_cell, mbind, Handler_bind.
    cbn. rewrite Hfetch. cbn.
    destruct (variable st) as [v|]; cbn; [|done].
    case_bool_decide; cbn; [done|].
    by destruct (getLevelPrefix LEVEL_PREFIX v).
  - intros <-.
    unfold exec, initMap, render, try_catch, fetchMetaData, mbind, Handler_bind.
    cbn. by rewrite Hfetch.
Qed.

(** C8: the base endpoint depends on the domain identifier alone, through
    the test [startsWith('dwd_icon')]: domains with that prefix use
    https://s3.servert.ch, every other domain the default endpoint. The
    overlay address and the metadata address of a domain are both built on
    that endpoint followed by [/data_spatial/<domain>/]; the metadata fetch
    requests exactly that address, returns the document served there and
    throws when the request fails there, and a domain change or the mount
    effect installs the document served there. For gfs_global the endpoint
    is the default one: a network serving the document at the default
    address only is enough, one serving it at the institutional address only
    makes the fetch fail. *)
Theorem endpoint_by_domain_prefix :
  (∀ d, uri d = if JS.startsWith d "dwd_icon"
                then "https://s3.servert.ch"%string
                else "https://map-tiles.open-meteo.com"%string) ∧
  (∀ d v r t,
     getOMUrl d v r t =
     (uri d ++ "/data_spatial/" ++ d ++ "/" ++ fmtModelRun r ++ "/" ++
      fmtSelectedTime t ++ ".om" ++ "?variable=" ++ v)%string) ∧
  (∀ d, metaDataUrl d = (uri d ++ "/data_spatial/" ++ d ++ "/latest.json")%string) ∧
  (∀ fetch d, fetchMetaData fetch d = fetchMetaData (fun _ => fetch (metaDataUrl d)) d) ∧
  uri "gfs_global" = "https://map-tiles.open-meteo.com"%string ∧
  (∀ v r t,
     getOMUrl "gfs_global" v r t =
     ("https://map-tiles.open-meteo.com/data_spatial/gfs_global/" ++
      fmtModelRun r ++ "/" ++ fmtSelectedTime t ++ ".om?variable=" ++ v)%string) ∧
  (∀ fetch d status doc st,
     fetch (uri d ++ "/data_spatial/" ++ d ++ "/latest.json")%string
       = Response true status (Some doc) →
     fetchMetaData fetch d st = (Normal doc, st)) ∧
  (∀ fetch d st,
     fetchFailed (fetch (uri d ++ "/data_spatial/" ++ d ++ "/latest.json")%string)
       = true →
     ∃ e, fetchMetaData fetch d st = (Throw e, st)) ∧
  (∀ LEVEL_PREFIX Date_parse fetch d status doc st,
     fetch (uri d ++ "/data_spatial/" ++ d ++ "/latest.json")%string
       = Response true status (Some doc) →
     metaJson (exec (handleDomainChange LEVEL_PREFIX Date_parse fetch d) st)
       = Some doc ∧
     (domain st = d → metaJson (exec (initMap Date_parse fetch) st) = Some doc)) ∧
  (∀ d doc st,
     let only_at (address : string) : string → FetchOutcome :=
       fun url => if String.eqb url address
                  then Response true 200 (Some doc)
                  else Response false 404 None in
     (JS.startsWith d "dwd_icon" = true →
      fetchMetaData
        (only_at ("https://s3.servert.ch/data_spatial/" ++ d ++ "/latest.json")%string)
        d st = (Normal doc, st)) ∧
     (JS.startsWith d "dwd_icon" = false →
      fetchMetaData
        (only_at ("https://map-tiles.open-meteo.com/data_spatial/" ++ d
                  ++ "/latest.json")%string)
        d st = (Normal doc, st)) ∧
     fetchMetaData
       (only_at "https://map-tiles.open-meteo.com/data_spatial/gfs_global/latest.json")
       "gfs_global" st = (Normal doc, st) ∧
     fetchMetaData
       (only_at "https://s3.servert.ch/data_spatial/gfs_global/latest.json")
       "gfs_global" st = (Throw "HTTP 404", st)).
Proof.
  assert (∀ d v r t,
            getOMUrl d v r t =
            (uri d ++ "/data_spatial/" ++ d ++ "/" ++ fmtModelRun r ++ "/" ++
             fmtSelectedTime t ++ ".om" ++ "?variable=" ++ v)%string) as Hurl.
  { intros d v r t. unfold getOMUrl. by rewrite !append_assoc. }
  assert (∀ fetch d status doc st,
            fetch (metaDataUrl d) = Response true status (Some doc) →
            fetchMetaData fetch d st = (Normal doc, st)) as Hok.
  { intros fetch d status doc st Hfetch.
    pose proof (fetchMetaData_answer fetch d st) as Hans.
    by rewrite Hfetch in Hans. }
  split; [reflexivity|]. split; [exact Hurl|]. split; [reflexivity|].
  split; [reflexivity|]. split; [reflexivity|].
  split; [intros v r t; by rewrite Hurl|].
  split; [exact Hok|]. split.
  { intros fetch d st Hfail.
    pose proof (fetchMetaData_answer fetch d st) as Hans.
    change (uri d ++ "/data_spatial/" ++ d ++ "/latest.json")%string
      with (metaDataUrl d) in Hfail.
    destruct (fetch (metaDataUrl d)) as [|[] status [doc|]]; try done. }
  split.
  { intros LEVEL_PREFIX Date_parse fetch d status doc st Hfetch.
    by apply (metaJson_installed _ _ _ _ _ status). }
  intros d doc st only_at. split; [|split; [|split]].
  - intros Hd. apply (Hok _ _ 200). subst only_at. cbn beta.
    unfold metaDataUrl, uri. rewrite Hd. by rewrite String.eqb_refl.
  - intros Hd. apply (Hok _ _ 200). subst only_at. cbn beta.
    unfold metaDataUrl, uri. rewrite Hd. by rewrite String.eqb_refl.
  - reflexivity.
  - reflexivity.
Qed.

(** C2 (the code at the failing input): with wind_speed_100m listed before
    wind_speed_10m, both sit in the group wind_speed in that order; the
    preference order of the specification picks wind_speed_10m, while
    [handleVariableChange] stops at the first entry matching any of the
    three substrings and sets the variable to wind_speed_100m. *)
Theorem handleVariableChange_first_match_wins :
  let doc := {| reference_time := "2024-05-01T06:00Z";
                variables := ["wind_speed_100m"; "wind_speed_10m"]%string |} in
  let st := {| loading := false; domain := "dwd_icon";
               variable := Some "wind_speed_100m"%string;
               metaJson := Some doc; modelRun := Some (Some 1714543200000);
               selectedTime := Some 1714546800000 |} in
  let group := [ {| value := "wind_speed_100m"; label := "wind_speed_100m" |};
                 {| value := "wind_speed_10m"; label := "wind_speed_10m" |} ] in
  sample_levelGroupsList (Some doc) !! "wind_speed"%string = Some group ∧
  spec_defaultMember group = Some "wind_speed_10m"%string ∧
  sample_handleVariableChange "wind_speed" st =
    (Normal tt,
     {| loading := false; domain := "dwd_icon";
        variable := Some "wind_speed_100m"%string;
        metaJson := Some doc; modelRun := Some (Some 1714543200000);
        selectedTime := Some 1714546800000 |}).
Proof. by vm_compute. Qed.

(** The same with a 2m entry behind a 10m entry: the first match wins. *)
Example scanLevels_ten_before_two :
  let group := [ {| value := "temperature_10m"; label := "10 m" |};
                 {| value := "temperature_2m"; label := "2 m" |} ] in
  scanLevels group "temperature_10m" = "temperature_10m"%string ∧
  spec_defaultMember group = Some "temperature_2m"%string.
Proof. by vm_compute. Qed.

(** On a group holding a 10m entry and a pressure-level entry the two agree. *)
Example scanLevels_ten_and_pressure :
  let group := [ {| value := "temperature_850hPa"; label := "850 hPa" |};
                 {| value := "temperature_10m"; label := "10 m" |} ] in
  scanLevels group "temperature_850hPa" = "temperature_10m"%string ∧
  spec_defaultMember group = Some "temperature_10m"%string.
Proof. by vm_compute. Qed.

(** C1 (counterexample): a domain change from dwd_icon to gfs_global whose
    fetch is rejected leaves the domain at gfs_global, not at its value
    before the call. *)
Lemma handleDomainChange_failure_changes_domain :
  fetchFailed (Sample.offline (metaDataUrl "gfs_global")) = true ∧
  domain Sample.loaded = "dwd_icon"%string ∧
  domain (exec (sample_handleDomainChange Sample.offline "gfs_global") Sample.loaded)
    = "gfs_global"%string ∧
  domain (exec (sample_handleDomainChange Sample.offline "gfs_global") Sample.loaded)
    ≠ domain Sample.loaded.
Proof. repeat split; by vm_compute. Qed.

Lemma handleDomainChange_failure_keeps_selection_witness :
  fetchFailed (Sample.offline (metaDataUrl "gfs_global")) = true ∧
  let st' := exec (sample_handleDomainChange Sample.offline "gfs_global")
               Sample.loaded in
  variable st' = variable Sample.loaded ∧ metaJson st' = metaJson Sample.loaded ∧
  modelRun st' = modelRun Sample.loaded ∧
  selectedTime st' = selectedTime Sample.loaded ∧
  loading st' = false ∧ domain st' = "gfs_global"%string.
Proof.
  split; [reflexivity|].
  apply (handleDomainChange_failure_keeps_selection
           Sample.LEVEL_PREFIX Sample.Date_parse Sample.offline "gfs_global"
           Sample.loaded).
  reflexivity.
Defined.

Lemma handleDomainChange_reconciles_witness :
  let st := {| loading := false; domain := "dwd_icon";
               variable := Some "wind_speed_100m"%string;
               metaJson := Some Sample.icon;
               modelRun := Some (Some 1714543200000);
               selectedTime := Some 1714546800000 |} in
  let st' := exec (sample_handleDomainChange (Sample.serving Sample.gfs)
                     "gfs_global") st in
  Sample.serving Sample.gfs (metaDataUrl "gfs_global")
    = Response true 200 (Some Sample.gfs) ∧
  ("wind_speed_100m"%string ∉ variables Sample.gfs) ∧
  getLevelPrefix Sample.LEVEL_PREFIX "wind_speed_100m" = Some "wind_speed"%string ∧
  metaJson st' = Some Sample.gfs ∧
  variable st' = Some "wind_speed_10m"%string.
Proof.
  intros st st'.
  assert (Sample.serving Sample.gfs (metaDataUrl "gfs_global")
          = Response true 200 (Some Sample.gfs)) as Hfetch by reflexivity.
  assert ("wind_speed_100m"%string ∉ variables Sample.gfs) as Hnin.
  { apply (bool_decide_unpack _). vm_compute. exact I. }
  assert (variable st = Some "wind_speed_100m"%string) as Hv by reflexivity.
  destruct (handleDomainChange_reconciles
              Sample.LEVEL_PREFIX Sample.Date_parse (Sample.serving Sample.gfs)
              "gfs_global" st 200 Sample.gfs "wind_speed_100m" Hfetch Hv)
    as (_ & Hmeta & _ & Hfirst & _).
  split; [exact Hfetch|]. split; [exact Hnin|]. split; [reflexivity|].
  split; [exact Hmeta|].
  apply (Hfirst Hnin "wind_speed"%string ["cape"%string] "wind_speed_10m"%string
           ["wind_speed_80m"%string]); [reflexivity | reflexivity | reflexivity |].
  intros u Hu. apply list_elem_of_singleton in Hu. subst u. reflexivity.
Defined.

(** C5 (counterexample): from a state satisfying the invariant,
    [handleLevelChange] with a name that the document does not list, and a
    successful domain change to a document without variables, both leave the
    variable outside the loaded document. *)
Lemma selection_invariant_broken_by_handlers :
  selectionInv Sample.loaded ∧
  (let st' := exec (handleLevelChange "wind_speed_80m") Sample.loaded in
   metaJson st' = Some Sample.icon ∧
   variable st' = Some "wind_speed_80m"%string ∧
   ("wind_speed_80m"%string ∉ variables Sample.icon) ∧
   ¬ selectionInv st') ∧
  (let st' := exec (sample_handleDomainChange (Sample.serving Sample.bare)
                      "gfs_global") Sample.loaded in
   metaJson st' = Some Sample.bare ∧
   variable st' = None ∧
   ¬ selectionInv st').
Proof.
  split; [|split].
  - exists "temperature_2m"%string. split; [done|].
    intros m [= <-]. apply (bool_decide_unpack _). by vm_compute.
  - intros st'.
    assert ("wind_speed_80m"%string ∉ variables Sample.icon) as Hnin.
    { apply (bool_decide_unpack _). by vm_compute. }
    repeat split; [done|].
    intros (v & [= <-] & Hin). by apply Hnin, Hin.
  - intros st'. repeat split.
    intros (v & Hv & _). by vm_compute in Hv.
Qed.

(** The mount effect installs the first document without looking at the
    variable: the hard-coded default stays even when the document lacks it. *)
Example initMap_keeps_default_variable :
  let st' := exec (initMap Sample.Date_parse
                     (fun _ => Response true 200 (Some Sample.gfs)))
               (initialState (Some 1714544100000)) in
  metaJson st' = Some Sample.gfs ∧
  variable st' = Some "temperature_2m"%string ∧
  ("temperature_2m"%string ∉ variables Sample.gfs).
Proof.
  repeat split. apply (bool_decide_unpack _). by vm_compute.
Qed.

Lemma selection_invariant_preserved_witness :
  let es := [ VariableChange "wind_speed";
              LevelChange "wind_speed_10m";
              DomainChange (Sample.serving Sample.gfs) "gfs_global";
              VariableChange "cape";
              DomainChange Sample.offline "dwd_icon" ] in
  sample_enabled_trace Sample.loaded es = true ∧
  forallb loadsNonEmpty es = true ∧
  selectionInv (sample_run Sample.loaded es).
Proof.
  intros es.
  assert (selectionInv Sample.loaded) as Hinv.
  { exists "temperature_2m"%string. split; [reflexivity|].
    intros m Hm. injection Hm as <-.
    apply (bool_decide_unpack _). vm_compute. exact I. }
  assert (sample_enabled_trace Sample.loaded es = true) as Hen
    by (vm_compute; reflexivity).
  assert (forallb loadsNonEmpty es = true) as Hne by (vm_compute; reflexivity).
  split; [exact Hen|]. split; [exact Hne|].
  exact (selection_invariant_preserved
           Sample.LEVEL_REGEX Sample.LEVEL_PREFIX Sample.variableOptions
           Sample.levelGroupVariables Sample.Date_parse Sample.loaded es
           Hinv Hen Hne).
Defined.

(** C6 (counterexample): a scalar name equal to a group prefix and listed
    after a level-bearing name of that group puts the prefix twice in the
    scalar/group list; and a name that matches the level pattern but yields
    an empty prefix is in no level group at all. *)
Lemma classify_prefix_twice_or_dropped :
  (let doc := {| reference_time := "2024-05-01T06:00Z";
                 variables := ["wind_speed_10m"; "wind_speed"]%string |} in
   hasLevels Sample.LEVEL_REGEX "wind_speed_10m" = true ∧
   getLevelPrefix Sample.LEVEL_PREFIX "wind_speed_10m" = Some "wind_speed"%string ∧
   sample_variableList (Some doc) = ["wind_speed"; "wind_speed"]%string ∧
   occurrences "wind_speed" (sample_variableList (Some doc)) = 2%nat) ∧
  (let doc := {| reference_time := "2024-05-01T06:00Z";
                 variables := ["_850hPa"]%string |} in
   hasLevels Sample.LEVEL_REGEX "_850hPa" = true ∧
   getLevelPrefix Sample.LEVEL_PREFIX "_850hPa" = None ∧
   sample_levelGroupsList (Some doc) = ∅ ∧
   sample_variableList (Some doc) = []).
Proof. repeat split; by vm_compute. Qed.

Lemma classify_groups_by_prefix_witness :
  let p := "wind_speed"%string in
  let dropped := {| reference_time := "2024-05-01T06:00Z";
                    variables := ["_850hPa"; "wind_speed_10m"]%string |} in
  levelMembers Sample.LEVEL_REGEX Sample.LEVEL_PREFIX p (variables Sample.icon)
    = ["wind_speed_100m"; "wind_speed_10m"]%string ∧
  hasLevels Sample.LEVEL_REGEX "_850hPa" = true ∧
  getLevelPrefix Sample.LEVEL_PREFIX "_850hPa" = None ∧
  ((∃ es, sample_levelGroupsList (Some Sample.icon) !! p = Some es ∧
          value <$> es =
          levelMembers Sample.LEVEL_REGEX Sample.LEVEL_PREFIX p
            (variables Sample.icon)) ∧
   (∀ n k es,
      n ∈ levelMembers Sample.LEVEL_REGEX Sample.LEVEL_PREFIX p
            (variables Sample.icon) →
      sample_levelGroupsList (Some Sample.icon) !! k = Some es →
      n ∈ value <$> es → k = p) ∧
   p ∈ sample_variableList (Some Sample.icon) ∧
   (∃ pre n post,
      variables Sample.icon = pre ++ n :: post ∧
      levelMembers Sample.LEVEL_REGEX Sample.LEVEL_PREFIX p pre = [] ∧
      hasLevels Sample.LEVEL_REGEX n = true ∧
      getLevelPrefix Sample.LEVEL_PREFIX n = Some p ∧
      occurrences p (sample_variableList (Some Sample.icon)) =
        (Nat.max 1 (occurrences p (scalars Sample.LEVEL_REGEX pre))
         + occurrences p (scalars Sample.LEVEL_REGEX post))%nat ∧
      (occurrences p (sample_variableList (Some Sample.icon)) = 1%nat ↔
       (occurrences p (scalars Sample.LEVEL_REGEX pre) ≤ 1)%nat ∧
       occurrences p (scalars Sample.LEVEL_REGEX post) = 0%nat))) ∧
  (∀ k es, sample_levelGroupsList (Some dropped) !! k = Some es →
           "_850hPa"%string ∉ value <$> es).
Proof.
  intros p dropped.
  assert (levelMembers Sample.LEVEL_REGEX Sample.LEVEL_PREFIX p
            (variables Sample.icon) = ["wind_speed_100m"; "wind_speed_10m"]%string)
    as Hmem by (vm_compute; reflexivity).
  assert (levelMembers Sample.LEVEL_REGEX Sample.LEVEL_PREFIX p
            (variables Sample.icon) ≠ []) as Hne
    by (rewrite Hmem; discriminate).
  assert (hasLevels Sample.LEVEL_REGEX "_850hPa" = true) as Hl
    by (vm_compute; reflexivity).
  assert (getLevelPrefix Sample.LEVEL_PREFIX "_850hPa" = None) as Hp
    by (vm_compute; reflexivity).
  split; [exact Hmem|]. split; [exact Hl|]. split; [exact Hp|]. split.
  - exact (proj1 (classify_groups_by_prefix
                    Sample.LEVEL_REGEX Sample.LEVEL_PREFIX Sample.variableOptions
                    Sample.icon) p Hne).
  - intros k es.
    exact (proj2 (classify_groups_by_prefix
                    Sample.LEVEL_REGEX Sample.LEVEL_PREFIX Sample.variableOptions
                    dropped) "_850hPa"%string k es Hl Hp).
Defined.

(** The scalar named like the prefix comes first: the prefix is listed once. *)
Example variableList_scalar_before_group :
  sample_variableList
    (Some {| reference_time := "2024-05-01T06:00Z";
             variables := ["wind_speed"; "wind_speed_10m"]%string |})
  = ["wind_speed"%string].
Proof. by vm_compute. Qed.

Lemma classify_scalars_verbatim_witness :
  hasLevels Sample.LEVEL_REGEX "cape" = false ∧
  scalars Sample.LEVEL_REGEX (variables Sample.icon) = ["cape"%string] ∧
  scalars Sample.LEVEL_REGEX (variables Sample.icon)
    `sublist_of` sample_variableList (Some Sample.icon) ∧
  ∀ k es, sample_levelGroupsList (Some Sample.icon) !! k = Some es →
          "cape"%string ∉ value <$> es.
Proof.
  destruct (classify_scalars_verbatim
              Sample.LEVEL_REGEX Sample.LEVEL_PREFIX Sample.variableOptions
              (reference_time Sample.icon) (variables Sample.icon))
    as (_ & Hsub & Hgroups).
  split; [reflexivity|]. split; [reflexivity|]. split; [exact Hsub|].
  intros k es. apply (Hgroups "cape"%string k es); [|reflexivity].
  apply (bool_decide_unpack _). vm_compute. exact I.
Defined.

Lemma selectedTime_fixed_at_startup_witness :
  - JS.maxTimeValue ≤ 1714544100000 ≤ JS.maxTimeValue - JS.msPerHour ∧
  selectedTime (initialState (Some 1714544100000)) = Some 1714546800000 ∧
  ∃ t, selectedTime (initialState (Some 1714544100000)) = Some t ∧
       1714544100000 < t ≤ 1714544100000 + JS.msPerHour ∧
       t mod JS.msPerHour = 0.
Proof.
  assert (- JS.maxTimeValue ≤ 1714544100000 ≤ JS.maxTimeValue - JS.msPerHour)
    as Hrange by (unfold JS.maxTimeValue, JS.msPerHour; lia).
  split; [exact Hrange|]. split; [reflexivity|].
  destruct (selectedTime_fixed_at_startup
              Sample.LEVEL_REGEX Sample.LEVEL_PREFIX Sample.variableOptions
              Sample.Date_parse 1714544100000 Hrange)
    as (t & Ht & Hnext & Hhour & _).
  exists t. split; [exact Ht|]. split; [exact Hnext | exact Hhour].
Defined.

Lemma handleVariableChange_stays_in_group_witness :
  let levels := [ {| value := "wind_speed_100m"; label := "wind_speed_100m" |};
                  {| value := "wind_speed_10m"; label := "wind_speed_10m" |} ] in
  sample_levelGroupsList (Some Sample.icon) !! "wind_speed"%string = Some levels ∧
  (sample_handleVariableChange "wind_speed" Sample.loaded).1 = Normal tt ∧
  ∃ l, l ∈ levels ∧
       variable (exec (sample_handleVariableChange "wind_speed") Sample.loaded)
         = Some (value l) ∧
       value l ∈ variables Sample.icon.
Proof.
  intros levels.
  assert (sample_levelGroupsList (Some Sample.icon) !! "wind_speed"%string
          = Some levels) as Hgroup by (vm_compute; reflexivity).
  split; [exact Hgroup|].
  apply (handleVariableChange_stays_in_group
           Sample.LEVEL_REGEX Sample.LEVEL_PREFIX Sample.variableOptions
           Sample.loaded Sample.icon "wind_speed" levels);
    [reflexivity | exact Hgroup].
Defined.

Lemma endpoint_by_domain_prefix_witness :
  Sample.serving Sample.gfs
    (uri "gfs_global" ++ "/data_spatial/" ++ "gfs_global" ++ "/latest.json")%string
    = Response true 200 (Some Sample.gfs) ∧
  fetchFailed
    (Sample.serving Sample.gfs
       (uri "dwd_icon_d2" ++ "/data_spatial/" ++ "dwd_icon_d2" ++ "/latest.json")%string)
    = true ∧
  fetchMetaData (Sample.serving Sample.gfs) "gfs_global" Sample.loaded
    = (Normal Sample.gfs, Sample.loaded) ∧
  (∃ e, fetchMetaData (Sample.serving Sample.gfs) "dwd_icon_d2" Sample.loaded
        = (Throw e, Sample.loaded)) ∧
  metaJson (exec (sample_handleDomainChange (Sample.serving Sample.gfs) "gfs_global")
              Sample.loaded) = Some Sample.gfs.
Proof.
  destruct endpoint_by_domain_prefix
    as (_ & _ & _ & _ & _ & _ & Hok & Hfail & Hload & _).
  assert (Sample.serving Sample.gfs
            (uri "gfs_global" ++ "/data_spatial/" ++ "gfs_global" ++ "/latest.json")%string
          = Response true 200 (Some Sample.gfs)) as Hserved by reflexivity.
  assert (fetchFailed
            (Sample.serving Sample.gfs
               (uri "dwd_icon_d2" ++ "/data_spatial/" ++ "dwd_icon_d2"
                ++ "/latest.json")%string) = true) as Hmissing by reflexivity.
  split; [exact Hserved|]. split; [exact Hmissing|].
  split; [exact (Hok _ _ _ _ Sample.loaded Hserved)|].
  split; [exact (Hfail _ _ Sample.loaded Hmissing)|].
  exact (proj1 (Hload Sample.LEVEL_PREFIX Sample.Date_parse _ _ _ _
                  Sample.loaded Hserved)).
Defined.

(** ** Further closed properties *)


Lemma sar_in_range (x n : Z) :
  0 ≤ x < 2 ^ 31 → 0 ≤ n < 32 → JS.sar (Some x) (Some n) = x / 2 ^ n.
Proof.
  intros Hx Hn. unfold JS.sar, JS.ToInt32, JS.ToUint32.
  change 2147483648 with (2 ^ 31). change 4294967296 with (2 ^ 32).
  rewrite (Z.mod_small (x + 2 ^ 31)) by lia.
  rewrite (Z.mod_small n (2 ^ 32)) by lia.
  rewrite (Z.mod_small n 32) by lia.
  rewrite Z.shiftr_div_pow2 by lia. f_equal. lia.
Qed.

Lemma zoom6_ancestor (z x : Z) :
  12 < z ≤ 31 → 0 ≤ x < 2 ^ z →
  JS.sar (Some x) (JS.sub (Some z) 6) = x / 2 ^ (z - 6) ∧
  0 ≤ x / 2 ^ (z - 6) < 64.
Proof.
  intros Hz Hx.
  assert (2 ^ z ≤ 2 ^ 31) as Hpow by (apply Z.pow_le_mono_r; lia).
  assert (2 ^ z = 2 ^ (z - 6) * 64) as Hsplit.
  { replace z with ((z - 6) + 6) at 1 by lia. by rewrite Z.pow_add_r by lia. }
  assert (0 < 2 ^ (z - 6)) as Hpos by (apply Z.pow_pos_nonneg; lia).
  split.
  - cbn [JS.sub fmap option_fmap option_map]. apply sar_in_range; lia.
  - split; [apply Z.div_pos; lia|]. apply Z.div_lt_upper_bound; lia.
Qed.

(** X12: above zoom 12 the [mapterhorn] handler serves a tile from the
    archive named after its ancestor at zoom 6, whose coordinates lie in
    0..63, so the four children of a tile are read from the archive of
    their parent; up to zoom 12 every tile comes from the archive planet. *)
Theorem mapterhorn_archive_of_ancestor (z x y : Z) :
  12 < z ≤ 31 → 0 ≤ x < 2 ^ z → 0 ≤ y < 2 ^ z →
  mapterhornName (Some z) (Some x) (Some y) =
    ("6-" ++ JS.String_of_number (Some (x / 2 ^ (z - 6))) ++ "-" ++
     JS.String_of_number (Some (y / 2 ^ (z - 6))))%string ∧
  0 ≤ x / 2 ^ (z - 6) < 64 ∧ 0 ≤ y / 2 ^ (z - 6) < 64 ∧
  (z < 31 →
   ∀ a b, 0 ≤ a ≤ 1 → 0 ≤ b ≤ 1 →
     mapterhornName (Some (z + 1)) (Some (2 * x + a)) (Some (2 * y + b)) =
     mapterhornName (Some z) (Some x) (Some y)) ∧
  (∀ z' x' y', z' ≤ 12 → mapterhornName (Some z') x' y' = "planet"%string).
Proof.
  intros Hz Hx Hy.
  destruct (zoom6_ancestor z x Hz Hx) as [Hsx Hbx].
  destruct (zoom6_ancestor z y Hz Hy) as [Hsy Hby].
  assert (mapterhornName (Some z) (Some x) (Some y) =
          ("6-" ++ JS.String_of_number (Some (x / 2 ^ (z - 6))) ++ "-" ++
           JS.String_of_number (Some (y / 2 ^ (z - 6))))%string) as Hname.
  { unfold mapterhornName. cbn [JS.le].
    rewrite (proj2 (Z.leb_gt z 12)) by lia. by rewrite Hsx, Hsy. }
  split; [exact Hname|]. split; [exact Hbx|]. split; [exact Hby|]. split.
  - intros Hz' a b Ha Hb. rewrite Hname.
    assert (2 ^ (z + 1) = 2 * 2 ^ z) as Hdouble
      by (rewrite Z.pow_add_r by lia; lia).
    assert (∀ u c, 0 ≤ u < 2 ^ z → 0 ≤ c ≤ 1 →
              JS.sar (Some (2 * u + c)) (JS.sub (Some (z + 1)) 6)
              = u / 2 ^ (z - 6)) as Hchild.
    { intros u c Hu Hc.
      destruct (zoom6_ancestor (z + 1) (2 * u + c)) as [-> _]; [lia|lia|].
      replace (z + 1 - 6) with (1 + (z - 6)) by lia.
      rewrite Z.pow_add_r by lia. change (2 ^ 1) with 2.
      rewrite <- Z.div_div by (try apply Z.pow_pos_nonneg; lia).
      f_equal. symmetry. apply (Z.div_unique _ 2 u c); lia. }
    unfold mapterhornName. cbn [JS.le].
    rewrite (proj2 (Z.leb_gt (z + 1) 12)) by lia.
    by rewrite !Hchild.
  - intros z' x' y' Hz'. unfold mapterhornName. cbn [JS.le].
    by rewrite (proj2 (Z.leb_le z' 12)).
Qed.

(** Segments that are not numbers: the comparison with 12 fails and the
    shifts see zero. *)
Example mapterhorn_not_a_number :
  mapterhornName None None None = "6-0-0"%string ∧
  mapterhornUrl (Some 14) (Some 8514) (Some 5744) =
    "pmtiles://https://mapterhorn.servert.ch/6-33-22.pmtiles/14/8514/5744.webp"%string.
Proof. by vm_compute. Qed.

Lemma handleDomainChange_round_trip_witness :
  let back : string → FetchOutcome :=
    fun _ => Response true 200 (Some Sample.icon) in
  Sample.serving Sample.gfs (metaDataUrl "gfs_global")
    = Response true 200 (Some Sample.gfs) ∧
  let st := exec (sample_handleVariableChange "cape") Sample.loaded in
  variable st = Some "cape"%string ∧
  exec (sample_handleDomainChange back "dwd_icon")
    (exec (sample_handleDomainChange (Sample.serving Sample.gfs) "gfs_global") st)
  = exec (sample_handleDomainChange back "dwd_icon") st ∧
  variable
    (exec (sample_handleDomainChange back "dwd_icon")
       (exec (sample_handleDomainChange (Sample.serving Sample.gfs) "gfs_global") st))
  = Some "cape"%string.
Proof.
  intros back.
  assert (Sample.serving Sample.gfs (metaDataUrl "gfs_global")
          = Response true 200 (Some Sample.gfs)) as HB by reflexivity.
  split; [exact HB|]. intros st.
  assert (variable st = Some "cape"%string) as Hv by reflexivity.
  assert ("cape"%string ∈ variables Sample.gfs) as HinB.
  { apply (bool_decide_unpack _). vm_compute. exact I. }
  assert ("cape"%string ∈ variables Sample.icon) as HinA.
  { apply (bool_decide_unpack _). vm_compute. exact I. }
  destruct (handleDomainChange_round_trip
              Sample.LEVEL_PREFIX Sample.Date_parse back
              (Sample.serving Sample.gfs) "dwd_icon" "gfs_global" st 200 200
              Sample.icon Sample.gfs "cape" eq_refl HB Hv HinB) as [Hsame Hvar].
  split; [exact Hv|]. split; [exact Hsame | exact (Hvar HinA)].
Defined.

Lemma menu_entries_and_group_keys_witness :
  is_Some (sample_levelGroupsList (Some Sample.icon) !! "wind_speed"%string) ∧
  "wind_speed"%string ∈ sample_variableList (Some Sample.icon) ∧
  ∃ n, n ∈ variables Sample.icon ∧ hasLevels Sample.LEVEL_REGEX n = true ∧
       getLevelPrefix Sample.LEVEL_PREFIX n = Some "wind_speed"%string.
Proof.
  destruct (menu_entries_and_group_keys
              Sample.LEVEL_REGEX Sample.LEVEL_PREFIX Sample.variableOptions
              Sample.icon) as [Hentries Hkeys].
  assert (is_Some (sample_levelGroupsList (Some Sample.icon) !! "wind_speed"%string))
    as Hkey by (vm_compute; eauto).
  split; [exact Hkey|]. split.
  - apply (proj2 (Hentries "wind_speed"%string)). right. exact Hkey.
  - exact (proj1 (Hkeys "wind_speed"%string) Hkey).
Defined.

Lemma menus_without_duplicates_witness :
  NoDup (variables Sample.icon) ∧
  (∀ k es, sample_levelGroupsList (Some Sample.icon) !! k = Some es →
           NoDup (value <$> es)) ∧
  NoDup (sample_variableList (Some Sample.icon)).
Proof.
  assert (NoDup (variables Sample.icon)) as Hnd.
  { apply (bool_decide_unpack _). vm_compute. exact I. }
  destruct (menus_without_duplicates
              Sample.LEVEL_REGEX Sample.LEVEL_PREFIX Sample.variableOptions
              Sample.icon Hnd) as [Hgroups Hmenu].
  split; [exact Hnd|]. split; [exact Hgroups|].
  apply Hmenu. intros n Hn Hl.
  repeat (apply elem_of_cons in Hn as [->|Hn]);
    try (vm_compute in Hl; discriminate Hl);
    try (vm_compute; reflexivity).
  apply elem_of_nil in Hn. destruct Hn.
Defined.

Lemma handleVariableChange_shows_levels_witness :
  let levels := [ {| value := "wind_speed_100m"; label := "wind_speed_100m" |};
                  {| value := "wind_speed_10m"; label := "wind_speed_10m" |} ] in
  let st' := exec (sample_handleVariableChange "wind_speed") Sample.loaded in
  sample_levelGroupsList (Some Sample.icon) !! "wind_speed"%string = Some levels ∧
  "wind_speed"%string ∈ Sample.levelGroupVariables ∧
  ∃ v, variable st' = Some v ∧
       currentLevels Sample.LEVEL_REGEX Sample.LEVEL_PREFIX Sample.variableOptions
         Sample.levelGroupVariables st' = levels ∧
       variableSelectValue Sample.LEVEL_PREFIX Sample.levelGroupVariables v
         = "wind_speed"%string.
Proof.
  intros levels st'.
  assert (sample_levelGroupsList (Some Sample.icon) !! "wind_speed"%string
          = Some levels) as Hgroup by (vm_compute; reflexivity).
  assert ("wind_speed"%string ∈ Sample.levelGroupVariables) as Hin.
  { apply (bool_decide_unpack _). vm_compute. exact I. }
  split; [exact Hgroup|]. split; [exact Hin|].
  destruct (handleVariableChange_shows_levels
              Sample.LEVEL_REGEX Sample.LEVEL_PREFIX Sample.variableOptions
              Sample.levelGroupVariables Sample.loaded Sample.icon "wind_speed"
              levels eq_refl Hgroup) as (v & Hv & _ & Hshown & _).
  exists v. split; [exact Hv|]. exact (Hshown Hin).
Defined.

Lemma handleLevelChange_keeps_levels_witness :
  let st := exec (sample_handleVariableChange "wind_speed") Sample.loaded in
  let st' := exec (handleLevelChange "wind_speed_10m") st in
  "wind_speed_10m"%string ∈
    levelSelectOptions Sample.LEVEL_REGEX Sample.LEVEL_PREFIX
      Sample.variableOptions Sample.levelGroupVariables st ∧
  variable st' = Some "wind_speed_10m"%string ∧
  currentLevels Sample.LEVEL_REGEX Sample.LEVEL_PREFIX Sample.variableOptions
    Sample.levelGroupVariables st'
  = currentLevels Sample.LEVEL_REGEX Sample.LEVEL_PREFIX Sample.variableOptions
      Sample.levelGroupVariables st.
Proof.
  intros st st'.
  assert ("wind_speed_10m"%string ∈
            levelSelectOptions Sample.LEVEL_REGEX Sample.LEVEL_PREFIX
              Sample.variableOptions Sample.levelGroupVariables st) as Hopt.
  { apply (bool_decide_unpack _). vm_compute. exact I. }
  destruct (handleLevelChange_keeps_levels
              Sample.LEVEL_REGEX Sample.LEVEL_PREFIX Sample.variableOptions
              Sample.levelGroupVariables st "wind_speed_10m" Hopt)
    as (Hv & Hsame & _).
  split; [exact Hopt|]. split; [exact Hv | exact Hsame].
Defined.

Lemma getVariableLabel_fallback_witness :
  let table := [ {| value := "cape"; label := "" |};
                 {| value := "temperature_2m"; label := "Temperature (2 m)" |} ] in
  getVariableLabel table "cape" ≠ ""%string ∧
  getVariableLabel table "wind_gusts_10m" = "wind_gusts_10m"%string ∧
  getVariableLabel table "temperature_2m" = "Temperature (2 m)"%string.
Proof.
  intros table.
  destruct (getVariableLabel_fallback table "cape") as (Hnonempty & _ & _).
  destruct (getVariableLabel_fallback table "wind_gusts_10m") as (_ & Hmissing & _).
  destruct (getVariableLabel_fallback table "temperature_2m") as (_ & _ & Hlisted).
  split; [apply Hnonempty; discriminate|]. split.
  - apply Hmissing. intros o Ho.
    repeat (apply elem_of_cons in Ho as [->|Ho]); try discriminate.
    apply elem_of_nil in Ho. destruct Ho.
  - apply (Hlisted [ {| value := "cape"; label := "" |} ]
             {| value := "temperature_2m"; label := "Temperature (2 m)" |} []);
      [reflexivity | reflexivity |].
    intros o Ho. apply list_elem_of_singleton in Ho. subst o. discriminate.
Defined.


Lemma mapterhorn_archive_of_ancestor_witness :
  12 < 14 ≤ 31 ∧ 0 ≤ 8514 < 2 ^ 14 ∧ 0 ≤ 5744 < 2 ^ 14 ∧
  mapterhornName (Some 14) (Some 8514) (Some 5744) = "6-33-22"%string ∧
  mapterhornName (Some 15) (Some 17029) (Some 11488)
    = mapterhornName (Some 14) (Some 8514) (Some 5744).
Proof.
  assert (12 < 14 ≤ 31) as Hz by lia.
  assert (0 ≤ 8514 < 2 ^ 14) as Hx by (change (2 ^ 14) with 16384; lia).
  assert (0 ≤ 5744 < 2 ^ 14) as Hy by (change (2 ^ 14) with 16384; lia).
  destruct (mapterhorn_archive_of_ancestor 14 8514 5744 Hz Hx Hy)
    as (Hname & _ & _ & Hchild & _).
  split; [exact Hz|]. split; [exact Hx|]. split; [exact Hy|]. split.
  - exact Hname.
  - apply (Hchild ltac:(lia) 1 0); lia.
Defined.
